(** * Inventory voice agent: the intent-to-API mapping and response shaping

    A shallow embedding of [services/agent.py]: the transport helper
    [call_inventory_api] and the seventeen tool methods of
    [InventoryAgent], with the properties of the design specification
    stated and settled against them.

    Python values are an inductive type, dictionaries are association
    lists in insertion order (the order of [params.items()] decides the
    query string), binary64 floats are [spec_float] values, exceptions
    are explicit results, and the logger and the HTTP exchange are an
    explicit state threaded through every call. *)

From Stdlib Require Import ZArith NArith String Ascii List Bool Lia.
From Stdlib Require Import SpecFloat DecimalString.
Import ListNotations.

Local Open Scope string_scope.
Local Open Scope Z_scope.

Set Warnings "-register-all".

(** ** Python values *)

(** What [json.loads] and [response.json()] produce, and what the tool
    methods put into request bodies. *)
Inductive pyval : Type :=
| PNone
| PBool (b : bool)
| PInt (z : Z)
| PFloat (f : spec_float)
| PStr (s : string)
| PList (l : list pyval)
| PDict (d : list (string * pyval)).

(** Built-in exceptions the modelled expressions can raise. *)
Inductive pyexn : Type :=
| AttributeError
| TypeError
| ValueError
| KeyError
| OverflowError.

(** Result of evaluating a Python expression that may raise. *)
Inductive res (A : Type) : Type :=
| Ok (a : A)
| Err (e : pyexn).
Arguments Ok {A} a.
Arguments Err {A} e.

Definition rbind {A B} (r : res A) (k : A -> res B) : res B :=
  match r with
  | Ok a => k a
  | Err e => Err e
  end.

Declare Scope res_scope.
Delimit Scope res_scope with res.
Notation "x <~ c ;; k" := (rbind c (fun x => k))
  (at level 61, c at next level, right associativity) : res_scope.

(** ** Dictionaries *)

Fixpoint dict_get (d : list (string * pyval)) (k : string) : option pyval :=
  match d with
  | [] => None
  | (k', v) :: d' => if String.eqb k' k then Some v else dict_get d' k
  end.

(** [d[k] = v]: replaces the value in place when the key exists, appends
    the key otherwise. *)
Fixpoint dict_set (d : list (string * pyval)) (k : string) (v : pyval)
  : list (string * pyval) :=
  match d with
  | [] => [(k, v)]
  | (k', v') :: d' =>
      if String.eqb k' k then (k', v) :: d' else (k', v') :: dict_set d' k v
  end.

Definition dict_keys (d : list (string * pyval)) : list string := map fst d.

Definition has_key (d : list (string * pyval)) (k : string) : bool :=
  match dict_get d k with
  | Some _ => true
  | None => false
  end.

Definition get_or (d : list (string * pyval)) (k : string) (default : pyval) : pyval :=
  match dict_get d k with
  | Some x => x
  | None => default
  end.

(** [v.get(k, default)]; only dictionaries have a [get] attribute. *)
Definition py_get (v : pyval) (k : string) (default : pyval) : res pyval :=
  match v with
  | PDict d => Ok (get_or d k default)
  | _ => Err AttributeError
  end.

(** [isinstance(v, dict)] *)
Definition is_dict (v : pyval) : bool :=
  match v with
  | PDict _ => true
  | _ => false
  end.

(** ** Truth value, length, slicing, iteration *)

Definition float_is_zero (f : spec_float) : bool :=
  match f with
  | S754_zero _ => true
  | _ => false
  end.

Definition str_nonempty (s : string) : bool :=
  match s with
  | EmptyString => false
  | String _ _ => true
  end.

(** [bool(v)], the test of [if v:] and [if not v:]. *)
Definition truthy (v : pyval) : bool :=
  match v with
  | PNone => false
  | PBool b => b
  | PInt z => negb (z =? 0)
  | PFloat f => negb (float_is_zero f)
  | PStr s => str_nonempty s
  | PList l => match l with [] => false | _ :: _ => true end
  | PDict d => match d with [] => false | _ :: _ => true end
  end.

Definition py_len (v : pyval) : res Z :=
  match v with
  | PStr s => Ok (Z.of_nat (String.length s))
  | PList l => Ok (Z.of_nat (List.length l))
  | PDict d => Ok (Z.of_nat (List.length d))
  | _ => Err TypeError
  end.

(** [v[:n]]: lists and strings are sliceable; a dictionary rejects the
    slice as an unhashable key, everything else is not subscriptable. *)
Definition py_slice_to (n : nat) (v : pyval) : res pyval :=
  match v with
  | PList l => Ok (PList (firstn n l))
  | PStr s => Ok (PStr (String.substring 0 n s))
  | _ => Err TypeError
  end.

Fixpoint chars_of (s : string) : list pyval :=
  match s with
  | EmptyString => []
  | String c s' => PStr (String c EmptyString) :: chars_of s'
  end.

(** The items a [for] loop visits. *)
Definition py_iter (v : pyval) : res (list pyval) :=
  match v with
  | PList l => Ok l
  | PStr s => Ok (chars_of s)
  | PDict d => Ok (map (fun kv => PStr (fst kv)) d)
  | _ => Err TypeError
  end.

(** [v[k]] with a string key [k]. *)
Definition py_getitem (v : pyval) (k : string) : res pyval :=
  match v with
  | PDict d =>
      match dict_get d k with
      | Some x => Ok x
      | None => Err KeyError
      end
  | _ => Err TypeError
  end.

(** ** Decimal text of integers *)

Definition str_of_N (n : N) : string := NilZero.string_of_uint (N.to_uint n).

(** [str(z)] for an [int]. *)
Definition str_of_Z (z : Z) : string :=
  match z with
  | Z0 => "0"
  | Zpos p => str_of_N (Npos p)
  | Zneg p => "-" ++ str_of_N (Npos p)
  end.

Definition is_digit (c : ascii) : bool :=
  let n := nat_of_ascii c in (48 <=? n)%nat && (n <=? 57)%nat.

Fixpoint all_digits (s : string) : bool :=
  match s with
  | EmptyString => true
  | String c s' => is_digit c && all_digits s'
  end.

(** ** Fixed-point formatting of binary64 values: [format(x, ".<d>f")] *)

Definition prec : Z := 53.
Definition emax : Z := 1024.

(** [float(z)] for an [int]: round to nearest even; values beyond the
    binary64 range raise [OverflowError]. *)
Definition float_of_int (z : Z) : res spec_float :=
  match binary_normalize prec emax z 0 false with
  | S754_infinity _ => Err OverflowError
  | f => Ok f
  end.

(** [n / 2^k] rounded to the nearest integer, ties to even ([0 <= n],
    [0 < k]). *)
Definition round_half_even (n k : Z) : Z :=
  let q := Z.shiftr n k in
  let r := n - Z.shiftl q k in
  let half := Z.shiftl 1 (k - 1) in
  if r <? half then q
  else if half <? r then q + 1
  else if Z.even q then q else q + 1.

(** The value [m * 2^e] scaled by [10^d] and rounded to an integer. *)
Definition scaled_units (d : nat) (m : positive) (e : Z) : Z :=
  let n := Zpos m * 10 ^ Z.of_nat d in
  if 0 <=? e then Z.shiftl n e else round_half_even n (- e).

Definition digit_char (z : Z) : ascii := ascii_of_nat (48 + Z.to_nat z).

(** The last [d] decimal digits of [x], zero padded. *)
Fixpoint frac_digits (d : nat) (x : Z) : string :=
  match d with
  | O => EmptyString
  | S d' => frac_digits d' (x / 10) ++ String (digit_char (x mod 10)) EmptyString
  end.

Definition sign_str (s : bool) : string := if s then "-" else "".

Definition fixed_of_units (d : nat) (s : bool) (u : Z) : string :=
  sign_str s ++ str_of_N (Z.to_N (u / 10 ^ Z.of_nat d))
  ++ match d with
     | O => ""
     | S _ => "." ++ frac_digits d (u mod 10 ^ Z.of_nat d)
     end.

Definition format_float_fixed (d : nat) (f : spec_float) : string :=
  match f with
  | S754_nan => "nan"
  | S754_infinity s => sign_str s ++ "inf"
  | S754_zero s => fixed_of_units d s 0
  | S754_finite s m e => fixed_of_units d s (scaled_units d m e)
  end.

(** [f"{v:.<d>f}"]: numbers are formatted, [None] and containers reject
    the format string, a [str] rejects the format code. *)
Definition format_fixed (d : nat) (v : pyval) : res string :=
  match v with
  | PFloat f => Ok (format_float_fixed d f)
  | PInt z => (f <~ float_of_int z ;; Ok (format_float_fixed d f))%res
  | PBool b => Ok (format_float_fixed d
                     (binary_normalize prec emax (if b then 1 else 0) 0 false))
  | PStr _ => Err ValueError
  | PNone | PList _ | PDict _ => Err TypeError
  end.

(** The binary64 value nearest to the decimal literal [num / den], for
    [num] and [den] below [2^53]: the correctly rounded quotient of two
    exactly represented integers. *)
Definition float_of_ratio (num : Z) (den : positive) : spec_float :=
  SFdiv prec emax (binary_normalize prec emax num 0 false)
                  (binary_normalize prec emax (Zpos den) 0 false).

(** ** Lists of strings, loops *)

(** [sep.join(parts)] *)
Fixpoint join (sep : string) (parts : list string) : string :=
  match parts with
  | [] => ""
  | [p] => p
  | p :: rest => p ++ sep ++ join sep rest
  end.

(** A list comprehension whose element expression may raise. *)
Fixpoint map_res {A B} (f : A -> res B) (l : list A) : res (list B) :=
  match l with
  | [] => Ok []
  | x :: l' =>
      (y <~ f x ;; ys <~ map_res f l' ;; Ok (y :: ys))%res
  end.

(** [for x in l: response += line(x)]: the first raising item aborts. *)
Fixpoint for_append {A} (line : A -> res string) (l : list A) (response : string)
  : res string :=
  match l with
  | [] => Ok response
  | x :: l' => (s <~ line x ;; for_append line l' (response ++ s))%res
  end.

(** [l.append(x)] *)
Definition append_item {A} (l : list A) (x : A) : list A := (l ++ [x])%list.

(** [enumerate(l, start)] *)
Fixpoint enumerate {A} (l : list A) (start : Z) : list (Z * A) :=
  match l with
  | [] => []
  | x :: l' => (start, x) :: enumerate l' (start + 1)
  end.

Definition nl : string := String (ascii_of_nat 10) EmptyString.

(** ** The world outside the agent *)

Record request : Type := mk_request {
  req_method : string;
  req_url : string;
  req_json : option pyval
}.

(** One HTTP exchange either yields the decoded JSON body or raises (a
    connection failure, a timeout, a body that is not JSON); [detail] is
    [str(e)] of the raised exception. *)
Inductive exchange_result : Type :=
| Responded (body : pyval)
| Faulted (detail : string).

Inductive parse_result : Type :=
| Parsed (v : pyval)
| ParseError (detail : string).

Inductive level : Type := ERROR | WARNING | INFO.

(** What the agent leaves behind: the log records and the requests it
    issued, oldest first. *)
Record world : Type := mk_world {
  logged : list (level * string);
  sent : list request
}.

Definition empty_world : world := mk_world [] [].

(** The environment of the module: configuration, the remote service and
    the pieces of the Python runtime that are used but not modelled
    ([json.loads], [repr] of floats and of containers). *)
Record runtime : Type := mk_runtime {
  API_BASE_URL : string;
  exchange : request -> exchange_result;
  json_loads : string -> parse_result;
  float_repr : spec_float -> string;
  container_repr : pyval -> string
}.

(** How one call of a tool method ends. *)
Inductive outcome (A : Type) : Type :=
| Returns (a : A)
| ToolError (msg : string)
| Uncaught (e : pyexn).
Arguments Returns {A} a.
Arguments ToolError {A} msg.
Arguments Uncaught {A} e.

Definition M (A : Type) : Type := world -> outcome A * world.

Definition ret {A} (a : A) : M A := fun w => (Returns a, w).

Definition bind {A B} (c : M A) (k : A -> M B) : M B :=
  fun w =>
    match c w with
    | (Returns a, w') => k a w'
    | (ToolError msg, w') => (ToolError msg, w')
    | (Uncaught e, w') => (Uncaught e, w')
    end.

Definition raise_ToolError {A} (msg : string) : M A := fun w => (ToolError msg, w).

(** A pure expression inside a tool method; its exception is not caught. *)
Definition lift {A} (r : res A) : M A :=
  fun w =>
    match r with
    | Ok a => (Returns a, w)
    | Err e => (Uncaught e, w)
    end.

Definition log (lv : level) (msg : string) : M unit :=
  fun w => (Returns tt, mk_world (append_item (logged w) (lv, msg)) (sent w)).

Declare Scope agent_scope.
Delimit Scope agent_scope with agent.
Notation "x <- c ;; k" := (bind c (fun x => k))
  (at level 61, c at next level, right associativity) : agent_scope.
Notation "c ;;; k" := (bind c (fun _ => k))
  (at level 61, right associativity) : agent_scope.

(** ** Typed tool arguments as Python values *)

Definition ostr (o : option string) : pyval :=
  match o with
  | Some s => PStr s
  | None => PNone
  end.

(** [if o:] for an [Optional[str]] argument: supplied and not empty. *)
Definition given (o : option string) : bool := truthy (ostr o).

(** The [f"{k}={v}"] pairs of [params.items()]. *)
Definition query_pairs (str_of : pyval -> string) (params : list (string * pyval))
  : list string :=
  map (fun kv => fst kv ++ "=" ++ str_of (snd kv)) params.

Section Agent.

Variable rt : runtime.

Local Open Scope agent_scope.

(** [str(v)], the text an f-string field without a format code shows. *)
Definition py_str (v : pyval) : string :=
  match v with
  | PNone => "None"
  | PBool true => "True"
  | PBool false => "False"
  | PInt z => str_of_Z z
  | PFloat f => float_repr rt f
  | PStr s => s
  | PList _ | PDict _ => container_repr rt v
  end.

(** *** Helper: [call_inventory_api] *)

Definition failure (detail : string) : pyval :=
  PDict [("success", PBool false); ("error", PStr detail)].

(** One exchange inside the [try] block: the request goes out, the body
    is decoded and returned; an exception is logged and turned into the
    failure dictionary. *)
Definition attempt (endpoint : string) (r : request) : M pyval :=
  fun w =>
    let w' := mk_world (logged w) (append_item (sent w) r) in
    match exchange rt r with
    | Responded body => (Returns body, w')
    | Faulted detail =>
        (Returns (failure detail),
         mk_world (append_item (logged w')
                     (ERROR, "API call failed: " ++ endpoint ++ " - " ++ detail))
                  (sent w'))
    end.

Definition call_inventory_api (endpoint method : string) (data : pyval) : M pyval :=
  let url := API_BASE_URL rt ++ endpoint in
  if String.eqb method "GET" then attempt endpoint (mk_request "GET" url None)
  else if String.eqb method "POST" then attempt endpoint (mk_request "POST" url (Some data))
  else if String.eqb method "PUT" then attempt endpoint (mk_request "PUT" url (Some data))
  else if String.eqb method "DELETE" then attempt endpoint (mk_request "DELETE" url None)
  else ret PNone.

(** The [else] branch every tool method ends with. *)
Definition raise_failed {A} (what : string) (result : pyval) : M A :=
  err <- lift (py_get result "error" (PStr "Unknown error")) ;;
  raise_ToolError (what ++ py_str err).

(** *** Product tools *)

Definition parse_cost_breakdown (cost_breakdown : option string)
    (data : list (string * pyval)) : M (list (string * pyval)) :=
  match cost_breakdown with
  | Some cb =>
      if str_nonempty cb then
        match json_loads rt cb with
        | Parsed v => ret (dict_set data "costBreakdown" v)
        | ParseError e =>
            log WARNING ("Failed to parse cost_breakdown: " ++ cb ++ ", error: " ++ e) ;;;
            ret data
        end
      else ret data
  | None => ret data
  end.

Definition add_product_data (name type : string) (quantity : Z) (price : spec_float)
    (sku : option string) (cost : option spec_float)
    (description caption : option string) : list (string * pyval) :=
  let product_data :=
    [("name", PStr name); ("type", PStr type);
     ("quantity", PInt quantity); ("price", PFloat price)] in
  let product_data :=
    if given sku then dict_set product_data "sku" (ostr sku) else product_data in
  let product_data :=
    match cost with
    | Some c => dict_set product_data "cost" (PFloat c)
    | None => product_data
    end in
  let product_data :=
    if given description then dict_set product_data "description" (ostr description)
    else product_data in
  if given caption then dict_set product_data "caption" (ostr caption)
  else product_data.

Definition breakdown_item (item : pyval) : res string :=
  (c <~ py_getitem item "category" ;;
   a <~ py_getitem item "amount" ;;
   Ok (py_str c ++ ": $" ++ py_str a))%res.

(** What [add_product] makes of the answer. *)
Definition add_product_reply (name : string) (quantity : Z) (price : spec_float)
    (result : pyval) : M string :=
  success <- lift (py_get result "success" PNone) ;;
  if truthy success then
    product <- lift (py_get result "data" (PDict [])) ;;
    cb <- lift (py_get product "costBreakdown" PNone) ;;
    breakdown_msg <-
      (if truthy cb then
         lift (cbl <~ py_get product "costBreakdown" (PList []) ;;
               items <~ py_iter cbl ;;
               breakdown_items <~ map_res breakdown_item items ;;
               Ok (" Cost breakdown: " ++ join ", " breakdown_items ++ "."))%res
       else ret "") ;;
    psku <- lift (py_get product "sku" PNone) ;;
    ret ("Successfully added " ++ str_of_Z quantity ++ " units of '" ++ name
         ++ "' (SKU: " ++ py_str psku ++ ") to inventory at $" ++ float_repr rt price
         ++ " per unit." ++ breakdown_msg)
  else raise_failed "Failed to add product: " result.

Definition add_product (name type : string) (quantity : Z) (price : spec_float)
    (sku : option string) (cost : option spec_float) (cost_breakdown : option string)
    (description caption : option string) : M string :=
  product_data <- parse_cost_breakdown cost_breakdown
                    (add_product_data name type quantity price sku cost description caption) ;;
  result <- call_inventory_api "/api/products" "POST" (PDict product_data) ;;
  add_product_reply name quantity price result.

Definition update_product_data (product_identifier : string)
    (name sku type : option string) (quantity : option Z)
    (price cost : option spec_float) (description caption : option string)
  : list (string * pyval) :=
  let update_data := [("product_identifier", PStr product_identifier)] in
  let update_data :=
    if given name then dict_set update_data "name" (ostr name) else update_data in
  let update_data :=
    if given sku then dict_set update_data "sku" (ostr sku) else update_data in
  let update_data :=
    if given type then dict_set update_data "type" (ostr type) else update_data in
  let update_data :=
    match quantity with
    | Some q => dict_set update_data "quantity" (PInt q)
    | None => update_data
    end in
  let update_data :=
    match price with
    | Some p => dict_set update_data "price" (PFloat p)
    | None => update_data
    end in
  let update_data :=
    match cost with
    | Some c => dict_set update_data "cost" (PFloat c)
    | None => update_data
    end in
  let update_data :=
    if given description then dict_set update_data "description" (ostr description)
    else update_data in
  if given caption then dict_set update_data "caption" (ostr caption)
  else update_data.

Definition update_product_fields (name : option string) (quantity : option Z)
    (price cost : option spec_float) : list string :=
  let fields_updated := [] in
  let fields_updated :=
    if given name then append_item fields_updated "name" else fields_updated in
  let fields_updated :=
    match price with
    | Some p => append_item fields_updated ("price ($" ++ float_repr rt p ++ ")")
    | None => fields_updated
    end in
  let fields_updated :=
    match cost with
    | Some c => append_item fields_updated ("cost ($" ++ float_repr rt c ++ ")")
    | None => fields_updated
    end in
  match quantity with
  | Some q => append_item fields_updated ("quantity (" ++ str_of_Z q ++ ")")
  | None => fields_updated
  end.

(** What [update_product] makes of the answer. *)
Definition update_product_reply (product_identifier : string) (name : option string)
    (quantity : option Z) (price cost : option spec_float) (result : pyval) : M string :=
  success <- lift (py_get result "success" PNone) ;;
  if truthy success then
    updated_product <- lift (py_get result "data" (PDict [])) ;;
    let fields_updated := update_product_fields name quantity price cost in
    let fields_str :=
      match fields_updated with
      | [] => "product details"
      | _ :: _ => join ", " fields_updated
      end in
    ret ("Successfully updated " ++ fields_str ++ " for '" ++ product_identifier ++ "'.")
  else raise_failed "Failed to update product: " result.

Definition update_product (product_identifier : string)
    (name sku type : option string) (quantity : option Z)
    (price cost : option spec_float) (cost_breakdown : option string)
    (description caption : option string) : M string :=
  update_data <- parse_cost_breakdown cost_breakdown
                   (update_product_data product_identifier name sku type quantity
                      price cost description caption) ;;
  result <- call_inventory_api ("/api/products/" ++ product_identifier) "PUT"
              (PDict update_data) ;;
  update_product_reply product_identifier name quantity price cost result.

Definition update_inventory_data (product_name : string)
    (quantity_change new_quantity : option Z) : list (string * pyval) :=
  let update_data := [("product_name", PStr product_name)] in
  let update_data :=
    match quantity_change with
    | Some q => dict_set update_data "quantity_change" (PInt q)
    | None => update_data
    end in
  match new_quantity with
  | Some q => dict_set update_data "new_quantity" (PInt q)
  | None => update_data
  end.

Definition update_inventory (product_name : string)
    (quantity_change new_quantity : option Z) : M string :=
  let update_data := update_inventory_data product_name quantity_change new_quantity in
  result <- call_inventory_api ("/api/products/quantity/" ++ product_name) "PUT"
              (PDict update_data) ;;
  success <- lift (py_get result "success" PNone) ;;
  if truthy success then
    message <- lift (py_get result "message" (PStr "")) ;;
    ret ("Successfully updated inventory for '" ++ product_name ++ "'. " ++ py_str message)
  else raise_failed "Failed to update inventory: " result.


Definition search_params (search_term type : option string) (low_stock : bool)
  : list (string * pyval) :=
  let params := [] in
  let params :=
    if given search_term then dict_set params "search" (ostr search_term) else params in
  let params :=
    if given type then dict_set params "type" (ostr type) else params in
  if low_stock then dict_set params "lowStock" (PStr "true") else params.

Definition products_endpoint (params : list (string * pyval)) : string :=
  let query_string := join "&" (query_pairs py_str params) in
  if str_nonempty query_string then "/api/products?" ++ query_string
  else "/api/products".

Definition search_line (p : pyval) : res string :=
  (name <~ py_get p "name" PNone ;;
   sku <~ py_get p "sku" PNone ;;
   quantity <~ py_get p "quantity" PNone ;;
   price <~ py_get p "price" PNone ;;
   Ok ("- " ++ py_str name ++ " (SKU: " ++ py_str sku ++ ", Quantity: "
       ++ py_str quantity ++ ", Price: $" ++ py_str price ++ ")" ++ nl))%res.

(** The common shape of the three truncating listings: a header with the
    count, at most five lines, and the remainder when more exist. *)
Definition preview_with_remainder (header : Z -> string) (line : pyval -> res string)
    (more : Z -> string) (products : pyval) : res string :=
  (n <~ py_len products ;;
   shown <~ py_slice_to 5 products ;;
   items <~ py_iter shown ;;
   response <~ for_append line items (header n) ;;
   Ok (if 5 <? n then response ++ more (n - 5) else response))%res.

Definition search_products (search_term type : option string) (low_stock : bool)
  : M string :=
  let endpoint := products_endpoint (search_params search_term type low_stock) in
  result <- call_inventory_api endpoint "GET" PNone ;;
  success <- lift (py_get result "success" PNone) ;;
  if truthy success then
    products <- lift (py_get result "data" (PList [])) ;;
    if negb (truthy products) then ret "No products found matching your search."
    else
      lift (preview_with_remainder
              (fun n => "Found " ++ str_of_Z n ++ " product(s):" ++ nl)
              search_line
              (fun k => "... and " ++ str_of_Z k ++ " more.")
              products)
  else raise_failed "Search failed: " result.

Definition list_params (type : option string) (low_stock : bool)
  : list (string * pyval) :=
  let params := [] in
  let params :=
    if given type && negb (String.eqb (match type with Some t => t | None => "" end) "all")
    then dict_set params "type" (ostr type) else params in
  if low_stock then dict_set params "lowStock" (PStr "true") else params.

Definition list_line (p : pyval) : res string :=
  (name <~ py_get p "name" PNone ;;
   sku <~ py_get p "sku" PNone ;;
   quantity <~ py_get p "quantity" PNone ;;
   price <~ py_get p "price" PNone ;;
   Ok ("- " ++ py_str name ++ " (SKU: " ++ py_str sku ++ ", Qty: "
       ++ py_str quantity ++ ", Price: $" ++ py_str price ++ ")" ++ nl))%res.

Definition list_products (type : option string) (low_stock : bool) : M string :=
  let endpoint := products_endpoint (list_params type low_stock) in
  result <- call_inventory_api endpoint "GET" PNone ;;
  success <- lift (py_get result "success" PNone) ;;
  if truthy success then
    products <- lift (py_get result "data" (PList [])) ;;
    if negb (truthy products) then ret "No products found."
    else
      lift (preview_with_remainder
              (fun n => "Found " ++ str_of_Z n ++ " product(s):" ++ nl)
              list_line
              (fun k => "... and " ++ str_of_Z k ++ " more.")
              products)
  else raise_failed "Failed to list products: " result.

Definition get_product (product_identifier : string) : M string :=
  result <- call_inventory_api ("/api/products/" ++ product_identifier) "GET" PNone ;;
  success <- lift (py_get result "success" PNone) ;;
  if truthy success then
    product <- lift (py_get result "data" (PDict [])) ;;
    lift (name <~ py_get product "name" PNone ;;
          sku <~ py_get product "sku" PNone ;;
          type <~ py_get product "type" PNone ;;
          quantity <~ py_get product "quantity" PNone ;;
          price <~ py_get product "price" PNone ;;
          cost <~ py_get product "cost" (PInt 0) ;;
          Ok ("Product: " ++ py_str name ++ ", SKU: " ++ py_str sku ++ ", "
              ++ "Type: " ++ py_str type ++ ", Quantity: " ++ py_str quantity ++ ", "
              ++ "Price: $" ++ py_str price ++ ", Cost: $" ++ py_str cost))%res
  else raise_failed "Product not found: " result.

Definition delete_product (product_identifier : string) : M string :=
  result <- call_inventory_api ("/api/products/" ++ product_identifier) "DELETE" PNone ;;
  success <- lift (py_get result "success" PNone) ;;
  if truthy success then
    ret ("Successfully deleted product '" ++ product_identifier ++ "'.")
  else raise_failed "Failed to delete product: " result.

(** *** Sales tools *)

Definition record_sale_data (product_name : string) (quantity : Z)
    (sell_price : option spec_float) : list (string * pyval) :=
  let sale_data := [("productName", PStr product_name); ("quantity", PInt quantity)] in
  match sell_price with
  | Some p => dict_set sale_data "sellPrice" (PFloat p)
  | None => sale_data
  end.

Definition record_sale (product_name : string) (quantity : Z)
    (sell_price : option spec_float) : M string :=
  let sale_data := record_sale_data product_name quantity sell_price in
  result <- call_inventory_api "/api/sales" "POST" (PDict sale_data) ;;
  success <- lift (py_get result "success" PNone) ;;
  if truthy success then
    sale <- lift (py_get result "data" (PDict [])) ;;
    lift (total <~ py_get sale "totalSaleValue" (PInt 0) ;;
          total <~ format_fixed 2 total ;;
          profit <~ py_get sale "profit" (PInt 0) ;;
          profit <~ format_fixed 2 profit ;;
          Ok ("Sale recorded! Sold " ++ str_of_Z quantity ++ " units of " ++ product_name
              ++ ". " ++ "Total: $" ++ total ++ ", " ++ "Profit: $" ++ profit))%res
  else raise_failed "Failed to record sale: " result.

Definition sales_params (product_name start_date end_date : option string) (limit : Z)
  : list (string * pyval) :=
  let params := [("limit", PStr (str_of_Z limit))] in
  let params :=
    if given product_name then dict_set params "product" (ostr product_name) else params in
  let params :=
    if given start_date then dict_set params "startDate" (ostr start_date) else params in
  if given end_date then dict_set params "endDate" (ostr end_date) else params.

(** [sale.get('productId', {}).get('name', 'Unknown')
     if isinstance(sale.get('productId'), dict) else 'Unknown'] *)
Definition sale_product_name (sale : pyval) : res pyval :=
  (pid <~ py_get sale "productId" PNone ;;
   if is_dict pid then
     pid <~ py_get sale "productId" (PDict []) ;;
     py_get pid "name" (PStr "Unknown")
   else Ok (PStr "Unknown"))%res.

Definition sales_history_line (sale : pyval) : res string :=
  (product_name <~ sale_product_name sale ;;
   quantity <~ py_get sale "quantity" PNone ;;
   total <~ py_get sale "totalSaleValue" (PInt 0) ;;
   total <~ format_fixed 2 total ;;
   profit <~ py_get sale "profit" (PInt 0) ;;
   profit <~ format_fixed 2 profit ;;
   Ok ("- " ++ py_str product_name ++ " (" ++ py_str quantity ++ " units, "
       ++ "$" ++ total ++ ", Profit: $" ++ profit ++ ")" ++ nl))%res.

Definition get_sales_history (product_name start_date end_date : option string)
    (limit : Z) : M string :=
  let params := sales_params product_name start_date end_date limit in
  let query_string := join "&" (query_pairs py_str params) in
  let endpoint := "/api/sales?" ++ query_string in
  result <- call_inventory_api endpoint "GET" PNone ;;
  success <- lift (py_get result "success" PNone) ;;
  if truthy success then
    sales <- lift (py_get result "data" (PList [])) ;;
    if negb (truthy sales) then ret "No sales found for the specified criteria."
    else
      lift (n <~ py_len sales ;;
            shown <~ py_slice_to 5 sales ;;
            items <~ py_iter shown ;;
            for_append sales_history_line items
              ("Found " ++ str_of_Z n ++ " sale(s):" ++ nl))%res
  else raise_failed "Failed to get sales history: " result.

Definition recent_sales_line (sale : pyval) : res string :=
  (product_name <~ sale_product_name sale ;;
   quantity <~ py_get sale "quantity" PNone ;;
   total <~ py_get sale "totalSaleValue" (PInt 0) ;;
   total <~ format_fixed 2 total ;;
   Ok ("- " ++ py_str product_name ++ " "
       ++ "(" ++ py_str quantity ++ " units, $" ++ total ++ ")" ++ nl))%res.

Definition get_recent_sales (limit : Z) : M string :=
  result <- call_inventory_api ("/api/sales?limit=" ++ str_of_Z limit) "GET" PNone ;;
  success <- lift (py_get result "success" PNone) ;;
  if truthy success then
    sales <- lift (py_get result "data" (PList [])) ;;
    if negb (truthy sales) then ret "No sales recorded yet."
    else
      lift (n <~ py_len sales ;;
            items <~ py_iter sales ;;
            for_append recent_sales_line items
              ("Recent " ++ str_of_Z n ++ " sale(s):" ++ nl))%res
  else raise_failed "Failed to get sales: " result.

(** *** Analytics tools *)

Definition get_inventory_summary : M string :=
  result <- call_inventory_api "/api/analytics/summary" "GET" PNone ;;
  success <- lift (py_get result "success" PNone) ;;
  if truthy success then
    summary <- lift (py_get result "data" (PDict [])) ;;
    lift (total_products <~ py_get summary "totalProducts" (PInt 0) ;;
          total_value <~ py_get summary "totalValue" (PInt 0) ;;
          total_value <~ format_fixed 2 total_value ;;
          low_stock <~ py_get summary "lowStockCount" (PInt 0) ;;
          Ok ("Inventory Summary: " ++ py_str total_products ++ " products, "
              ++ "Total value: $" ++ total_value ++ ", "
              ++ "Low stock items: " ++ py_str low_stock))%res
  else raise_failed "Failed to get summary: " result.

Definition view_analytics (period : string) : M string :=
  result <- call_inventory_api ("/api/analytics/profit?period=" ++ period) "GET" PNone ;;
  success <- lift (py_get result "success" PNone) ;;
  if truthy success then
    data <- lift (py_get result "data" (PDict [])) ;;
    lift (revenue <~ py_get data "totalRevenue" (PInt 0) ;;
          revenue <~ format_fixed 2 revenue ;;
          profit <~ py_get data "totalProfit" (PInt 0) ;;
          profit <~ format_fixed 2 profit ;;
          sales <~ py_get data "salesCount" (PInt 0) ;;
          margin <~ py_get data "profitMargin" (PInt 0) ;;
          margin <~ format_fixed 1 margin ;;
          Ok ("Analytics for " ++ period ++ ": "
              ++ "Revenue: $" ++ revenue ++ ", "
              ++ "Profit: $" ++ profit ++ ", "
              ++ "Sales: " ++ py_str sales ++ ", "
              ++ "Profit margin: " ++ margin ++ "%"))%res
  else raise_failed "Failed to get analytics: " result.

Definition get_profit_stats (period : string) : M string :=
  result <- call_inventory_api ("/api/analytics/profit?period=" ++ period) "GET" PNone ;;
  success <- lift (py_get result "success" PNone) ;;
  if truthy success then
    data <- lift (py_get result "data" (PDict [])) ;;
    lift (profit <~ py_get data "totalProfit" (PInt 0) ;;
          profit <~ format_fixed 2 profit ;;
          revenue <~ py_get data "totalRevenue" (PInt 0) ;;
          revenue <~ format_fixed 2 revenue ;;
          cost <~ py_get data "totalCost" (PInt 0) ;;
          cost <~ format_fixed 2 cost ;;
          average <~ py_get data "averageProfit" (PInt 0) ;;
          average <~ format_fixed 2 average ;;
          Ok ("Profit stats for " ++ period ++ ": "
              ++ "Total profit: $" ++ profit ++ ", "
              ++ "Revenue: $" ++ revenue ++ ", "
              ++ "Cost: $" ++ cost ++ ", "
              ++ "Average profit per sale: $" ++ average))%res
  else raise_failed "Failed to get profit stats: " result.

Definition monthly_line (month_data : pyval) : res string :=
  (month <~ py_get month_data "month" (PStr "Unknown") ;;
   profit <~ py_get month_data "profit" (PInt 0) ;;
   profit <~ format_fixed 2 profit ;;
   Ok ("- " ++ py_str month ++ ": $" ++ profit ++ nl))%res.

Definition get_monthly_profits (months : Z) : M string :=
  result <- call_inventory_api
              ("/api/analytics/monthly-profits?months=" ++ str_of_Z months) "GET" PNone ;;
  success <- lift (py_get result "success" PNone) ;;
  if truthy success then
    data <- lift (py_get result "data" (PList [])) ;;
    if negb (truthy data) then ret "No profit data available."
    else
      lift (shown <~ py_slice_to 5 data ;;
            items <~ py_iter shown ;;
            for_append monthly_line items
              ("Monthly profits (last " ++ str_of_Z months ++ " months):" ++ nl))%res
  else raise_failed "Failed to get monthly profits: " result.

Definition top_line (ip : Z * pyval) : res string :=
  let (i, p) := ip in
  (name <~ py_get p "name" (PStr "Unknown") ;;
   sku <~ py_get p "sku" (PStr "N/A") ;;
   profit <~ py_get p "profit" (PInt 0) ;;
   profit <~ format_fixed 2 profit ;;
   Ok (str_of_Z i ++ ". " ++ py_str name ++ " (SKU: " ++ py_str sku
       ++ ", Profit: $" ++ profit ++ ")" ++ nl))%res.

Definition get_top_products (period sort_by : string) (limit : Z) : M string :=
  result <- call_inventory_api
              ("/api/analytics/top-products?period=" ++ period ++ "&sortBy=" ++ sort_by
               ++ "&limit=" ++ str_of_Z limit) "GET" PNone ;;
  success <- lift (py_get result "success" PNone) ;;
  if truthy success then
    products <- lift (py_get result "data" (PList [])) ;;
    if negb (truthy products) then ret ("No sales data available for " ++ period ++ ".")
    else
      lift (n <~ py_len products ;;
            items <~ py_iter products ;;
            for_append top_line (enumerate items 1)
              ("Top " ++ str_of_Z n ++ " product(s) by " ++ sort_by ++ " for "
               ++ period ++ ":" ++ nl))%res
  else raise_failed "Failed to get top products: " result.

Definition low_stock_line (p : pyval) : res string :=
  (name <~ py_get p "name" PNone ;;
   quantity <~ py_get p "quantity" PNone ;;
   sku <~ py_get p "sku" PNone ;;
   Ok ("- " ++ py_str name ++ " (Quantity: " ++ py_str quantity ++ ", SKU: "
       ++ py_str sku ++ ")" ++ nl))%res.

Definition get_low_stock_alerts (threshold : Z) : M string :=
  result <- call_inventory_api
              ("/api/analytics/low-stock?threshold=" ++ str_of_Z threshold) "GET" PNone ;;
  success <- lift (py_get result "success" PNone) ;;
  if truthy success then
    products <- lift (py_get result "data" (PList [])) ;;
    if negb (truthy products) then
      ret "No low stock alerts. All products are well stocked."
    else
      lift (preview_with_remainder
              (fun n => str_of_Z n ++ " low stock alert(s):" ++ nl)
              low_stock_line
              (fun k => "... and " ++ str_of_Z k ++ " more items need restocking.")
              products)
  else raise_failed "Failed to get alerts: " result.

Definition get_sales_trends (period : string) : M string :=
  result <- call_inventory_api ("/api/analytics/trends?period=" ++ period) "GET" PNone ;;
  success <- lift (py_get result "success" PNone) ;;
  if truthy success then
    data <- lift (py_get result "data" (PDict [])) ;;
    lift (total_sales <~ py_get data "totalSales" (PInt 0) ;;
          average <~ py_get data "averagePerDay" (PInt 0) ;;
          average <~ format_fixed 1 average ;;
          trend <~ py_get data "trend" (PStr "stable") ;;
          Ok ("Sales trends for " ++ period ++ ": "
              ++ "Total sales: " ++ py_str total_sales ++ ", "
              ++ "Average per day: " ++ average ++ ", "
              ++ "Trend: " ++ py_str trend))%res
  else raise_failed "Failed to get trends: " result.

(** *** The catalog: one constructor per tool, with its typed arguments *)

Inductive operation : Type :=
| AddProduct (name type : string) (quantity : Z) (price : spec_float)
    (sku : option string) (cost : option spec_float) (cost_breakdown : option string)
    (description caption : option string)
| UpdateProduct (product_identifier : string) (name sku type : option string)
    (quantity : option Z) (price cost : option spec_float)
    (cost_breakdown : option string) (description caption : option string)
| UpdateInventory (product_name : string) (quantity_change new_quantity : option Z)
| SearchProducts (search_term type : option string) (low_stock : bool)
| ListProducts (type : option string) (low_stock : bool)
| GetProduct (product_identifier : string)
| DeleteProduct (product_identifier : string)
| RecordSale (product_name : string) (quantity : Z) (sell_price : option spec_float)
| GetSalesHistory (product_name start_date end_date : option string) (limit : Z)
| GetRecentSales (limit : Z)
| GetInventorySummary
| ViewAnalytics (period : string)
| GetProfitStats (period : string)
| GetMonthlyProfits (months : Z)
| GetTopProducts (period sort_by : string) (limit : Z)
| GetLowStockAlerts (threshold : Z)
| GetSalesTrends (period : string).

(** What the hosting runtime does when it selects a tool by name. *)
Definition invoke (op : operation) : M string :=
  match op with
  | AddProduct name type quantity price sku cost cost_breakdown description caption =>
      add_product name type quantity price sku cost cost_breakdown description caption
  | UpdateProduct product_identifier name sku type quantity price cost cost_breakdown
      description caption =>
      update_product product_identifier name sku type quantity price cost cost_breakdown
        description caption
  | UpdateInventory product_name quantity_change new_quantity =>
      update_inventory product_name quantity_change new_quantity
  | SearchProducts search_term type low_stock => search_products search_term type low_stock
  | ListProducts type low_stock => list_products type low_stock
  | GetProduct product_identifier => get_product product_identifier
  | DeleteProduct product_identifier => delete_product product_identifier
  | RecordSale product_name quantity sell_price => record_sale product_name quantity sell_price
  | GetSalesHistory product_name start_date end_date limit =>
      get_sales_history product_name start_date end_date limit
  | GetRecentSales limit => get_recent_sales limit
  | GetInventorySummary => get_inventory_summary
  | ViewAnalytics period => view_analytics period
  | GetProfitStats period => get_profit_stats period
  | GetMonthlyProfits months => get_monthly_profits months
  | GetTopProducts period sort_by limit => get_top_products period sort_by limit
  | GetLowStockAlerts threshold => get_low_stock_alerts threshold
  | GetSalesTrends period => get_sales_trends period
  end.

End Agent.

(** ** Vocabulary of the properties *)

Definition supported_methods : list string := ["GET"; "POST"; "PUT"; "DELETE"].

Definition supported (method : string) : bool :=
  existsb (String.eqb method) supported_methods.

Definition is_tool_error {A} (o : outcome A) : bool :=
  match o with
  | ToolError _ => true
  | _ => false
  end.

Definition is_returns {A} (o : outcome A) : bool :=
  match o with
  | Returns _ => true
  | _ => false
  end.

(** [needle in hay] *)
Fixpoint contains (needle hay : string) : bool :=
  match hay with
  | EmptyString => String.prefix needle hay
  | String _ hay' => String.prefix needle hay || contains needle hay'
  end.

(** The text after the integer digits: a point and exactly two digits. *)
Fixpoint two_decimals_from (seen_digit : bool) (s : string) : bool :=
  match s with
  | EmptyString => false
  | String c s' =>
      if is_digit c then two_decimals_from true s'
      else if Ascii.eqb c "." then
        seen_digit &&
        match s' with
        | String a (String b EmptyString) => is_digit a && is_digit b
        | _ => false
        end
      else false
  end.

(** An optional minus sign, at least one digit, a point, two digits. *)
Definition two_decimals (s : string) : bool :=
  match s with
  | String c s' => if Ascii.eqb c "-" then two_decimals_from false s'
                   else two_decimals_from false s
  | EmptyString => false
  end.

Definition is_finite (f : spec_float) : bool :=
  match f with
  | S754_zero _ | S754_finite _ _ _ => true
  | S754_infinity _ | S754_nan => false
  end.

(** A JSON number that is, or converts to, a finite binary64 value. *)
Definition finite_number (v : pyval) : bool :=
  match v with
  | PFloat f => is_finite f
  | PInt z =>
      match float_of_int z with
      | Ok f => is_finite f
      | Err _ => false
      end
  | _ => false
  end.

(** A currency field of a payload: absent, or a finite number. *)
Definition money_field (d : list (string * pyval)) (k : string) : bool :=
  match dict_get d k with
  | Some v => finite_number v
  | None => true
  end.

(** [f] is a binary64 value within half a unit in the last place of
    [num / den]. *)
Definition nearest_binary64 (num : Z) (den : positive) (f : spec_float) : bool :=
  match f with
  | S754_finite s m e =>
      negb s && (0 <? num) && (e <? 0) &&
      (2 ^ 52 <=? Zpos m) && (Zpos m <? 2 ^ 53) &&
      (2 * Z.abs (Zpos m * Zpos den - num * 2 ^ (- e)) <=? Zpos den)
  | _ => false
  end.

(** A sale whose product reference is absent, is not a dictionary, or is
    a dictionary without a name. *)
Definition unknown_product (sale : list (string * pyval)) : bool :=
  match dict_get sale "productId" with
  | None => true
  | Some (PDict pid) => negb (has_key pid "name")
  | Some _ => true
  end.

(** A rendered line of such a sale starts with the substituted name. *)
Definition shows_unknown (sale : pyval) (line : string) : Prop :=
  forall d, sale = PDict d -> unknown_product d = true ->
            String.prefix "- Unknown (" line = true.

Definition all_dicts (l : list pyval) : bool := forallb is_dict l.

(** Sales that are dictionaries with the given currency fields absent or
    finite numbers. *)
Definition sale_ok (money : list string) (sale : pyval) : bool :=
  match sale with
  | PDict d => forallb (money_field d) money
  | _ => false
  end.

(** The text each tool puts in front of the remote error message. *)
Definition failure_prefix (op : operation) : string :=
  match op with
  | AddProduct _ _ _ _ _ _ _ _ _ => "Failed to add product: "
  | UpdateProduct _ _ _ _ _ _ _ _ _ _ => "Failed to update product: "
  | UpdateInventory _ _ _ => "Failed to update inventory: "
  | SearchProducts _ _ _ => "Search failed: "
  | ListProducts _ _ => "Failed to list products: "
  | GetProduct _ => "Product not found: "
  | DeleteProduct _ => "Failed to delete product: "
  | RecordSale _ _ _ => "Failed to record sale: "
  | GetSalesHistory _ _ _ _ => "Failed to get sales history: "
  | GetRecentSales _ => "Failed to get sales: "
  | GetInventorySummary => "Failed to get summary: "
  | ViewAnalytics _ => "Failed to get analytics: "
  | GetProfitStats _ => "Failed to get profit stats: "
  | GetMonthlyProfits _ => "Failed to get monthly profits: "
  | GetTopProducts _ _ _ => "Failed to get top products: "
  | GetLowStockAlerts _ => "Failed to get alerts: "
  | GetSalesTrends _ => "Failed to get trends: "
  end.

(** The text a currency field shows: [f"{d.get(k, 0):.2f}"]. *)
Definition shown_amount (d : list (string * pyval)) (k : string) : string :=
  match format_fixed 2 (get_or d k (PInt 0)) with
  | Ok s => s
  | Err _ => ""
  end.

(** The rendered lines, one after the other. *)
Definition text_of (lines : list string) : string := fold_right String.append "" lines.

(** The sentence a listing tool answers with when nothing was found. *)
Definition no_results_sentence (op : operation) : option string :=
  match op with
  | SearchProducts _ _ _ => Some "No products found matching your search."
  | ListProducts _ _ => Some "No products found."
  | GetSalesHistory _ _ _ _ => Some "No sales found for the specified criteria."
  | GetRecentSales _ => Some "No sales recorded yet."
  | GetMonthlyProfits _ => Some "No profit data available."
  | GetTopProducts period _ _ => Some ("No sales data available for " ++ period ++ ".")
  | GetLowStockAlerts _ => Some "No low stock alerts. All products are well stocked."
  | _ => None
  end.

(** Computations that end the same way in every world and leave the log
    and the issued requests as they are. *)
Definition pure {A} (c : M A) : Prop := exists o, forall w, c w = (o, w).

(** The request [call_inventory_api] issues for a supported method. *)
Definition request_for (rt : runtime) (endpoint method : string) (data : pyval)
  : request :=
  mk_request method (API_BASE_URL rt ++ endpoint)
    (if String.eqb method "POST" || String.eqb method "PUT" then Some data else None).

(** What [costBreakdown] holds in the outgoing body: the parsed value of
    a non-empty, parseable argument, nothing otherwise. *)
Definition breakdown_field (rt : runtime) (cost_breakdown : option string)
  : option pyval :=
  match cost_breakdown with
  | Some cb =>
      if str_nonempty cb then
        match json_loads rt cb with
        | Parsed v => Some v
        | ParseError _ => None
        end
      else None
  | None => None
  end.

Definition with_breakdown (rt : runtime) (cost_breakdown : option string)
    (data : list (string * pyval)) : list (string * pyval) :=
  match breakdown_field rt cost_breakdown with
  | Some v => dict_set data "costBreakdown" v
  | None => data
  end.

(** The requests of the two product writers. *)
Definition add_product_request (rt : runtime) (name type : string) (quantity : Z)
    (price : spec_float) (sku : option string) (cost : option spec_float)
    (cost_breakdown description caption : option string) : request :=
  mk_request "POST" (API_BASE_URL rt ++ "/api/products")
    (Some (PDict (with_breakdown rt cost_breakdown
                    (add_product_data name type quantity price sku cost
                       description caption)))).

Definition update_product_request (rt : runtime) (product_identifier : string)
    (name sku type : option string) (quantity : option Z)
    (price cost : option spec_float)
    (cost_breakdown description caption : option string) : request :=
  mk_request "PUT" (API_BASE_URL rt ++ "/api/products/" ++ product_identifier)
    (Some (PDict (with_breakdown rt cost_breakdown
                    (update_product_data product_identifier name sku type quantity
                       price cost description caption)))).

(** The log record of a cost breakdown that does not parse. *)
Definition breakdown_warning (cb detail : string) : level * string :=
  (WARNING, "Failed to parse cost_breakdown: " ++ cb ++ ", error: " ++ detail).

(** The log records the parsing of the cost breakdown adds. *)
Definition breakdown_warnings (rt : runtime) (cost_breakdown : option string)
  : list (level * string) :=
  match cost_breakdown with
  | Some cb =>
      if str_nonempty cb then
        match json_loads rt cb with
        | Parsed _ => []
        | ParseError e => [breakdown_warning cb e]
        end
      else []
  | None => []
  end.

(** The answer to a request as [call_inventory_api] returns it, and the
    log record a faulted exchange adds. *)
Definition reply (rt : runtime) (r : request) : pyval :=
  match exchange rt r with
  | Responded body => body
  | Faulted detail => PDict [("success", PBool false); ("error", PStr detail)]
  end.

Definition fault_log (rt : runtime) (endpoint : string) (r : request)
  : list (level * string) :=
  match exchange rt r with
  | Responded _ => []
  | Faulted detail => [(ERROR, "API call failed: " ++ endpoint ++ " - " ++ detail)]
  end.

Definition is_some {A} (o : option A) : bool :=
  match o with
  | Some _ => true
  | None => false
  end.

(** Computations that never end in a [ToolError]. *)
Definition no_tool {A} (c : M A) : Prop :=
  forall w, is_tool_error (fst (c w)) = false.

(** *** Sample environments *)

Definition dq : string := String (ascii_of_nat 34) EmptyString.

(** The text [[{"category":"Material","amount":20},{"category":"Embroidery","amount":10}]]. *)
Definition sample_breakdown_text : string :=
  "[{" ++ dq ++ "category" ++ dq ++ ":" ++ dq ++ "Material" ++ dq ++ ","
  ++ dq ++ "amount" ++ dq ++ ":20},{" ++ dq ++ "category" ++ dq ++ ":" ++ dq
  ++ "Embroidery" ++ dq ++ "," ++ dq ++ "amount" ++ dq ++ ":10}]".

Definition sample_breakdown : list pyval :=
  [PDict [("category", PStr "Material"); ("amount", PInt 20)];
   PDict [("category", PStr "Embroidery"); ("amount", PInt 10)]].

(** A stand-in decoder for the concrete runs, not [json.loads]: it
    decodes the sample text, answers the malformed text of a lone opening
    bracket with the message [json.loads] gives for it, and takes every
    other text as malformed from its first character on, which is what
    [json.loads] says of the empty text. *)
Definition sample_json_loads (s : string) : parse_result :=
  if String.eqb s sample_breakdown_text then Parsed (PList sample_breakdown)
  else if String.eqb s "[" then ParseError "Expecting value: line 1 column 2 (char 1)"
  else ParseError "Expecting value: line 1 column 1 (char 0)".

(** A runtime whose remote service answers as [server] says. Its two
    printers are stand-ins as well: no concrete run prints a float with
    [repr] or a container. *)
Definition sample_runtime (server : request -> exchange_result) : runtime :=
  mk_runtime "http://localhost:3000" server sample_json_loads
    (fun _ => "0.0") (fun _ => "[]").

Definition answering (payload : pyval) : runtime :=
  sample_runtime (fun _ => Responded payload).

Definition unreachable (detail : string) : runtime :=
  sample_runtime (fun _ => Faulted detail).

Definition success_payload (data : pyval) : pyval :=
  PDict [("success", PBool true); ("data", data)].

Definition profit_payload : pyval :=
  success_payload
    (PDict [("totalProfit", PFloat (float_of_ratio 684020 100));
            ("totalRevenue", PFloat (float_of_ratio 1542050 100));
            ("totalCost", PFloat (float_of_ratio 858030 100));
            ("averageProfit", PFloat (float_of_ratio 163 1))]).

Definition sample_sale (q : Z) : pyval := PDict [("quantity", PInt q)].

Definition sample_product (name : string) : pyval :=
  PDict [("name", PStr name); ("sku", PStr "TW-001");
         ("quantity", PInt 3); ("price", PInt 10)].

Definition eight_products : list pyval :=
  map sample_product ["a"; "b"; "c"; "d"; "e"; "f"; "g"; "h"].

Definition six_sales : list pyval := map sample_sale [1; 2; 3; 4; 5; 6].

(** ** The rest of the repository *)

(** *** [tests/test_analytics_tool.py]: the test double of [view_analytics] *)

Definition mock_responses : list (string * pyval) :=
  [("today", PDict [("totalRevenue", PFloat (float_of_ratio 45000 100));
                    ("totalProfit", PFloat (float_of_ratio 18000 100));
                    ("salesCount", PInt 3);
                    ("profitMargin", PFloat (float_of_ratio 400 10))]);
   ("week", PDict [("totalRevenue", PFloat (float_of_ratio 325000 100));
                   ("totalProfit", PFloat (float_of_ratio 142050 100));
                   ("salesCount", PInt 18);
                   ("profitMargin", PFloat (float_of_ratio 437 10))]);
   ("month", PDict [("totalRevenue", PFloat (float_of_ratio 1542050 100));
                    ("totalProfit", PFloat (float_of_ratio 684020 100));
                    ("salesCount", PInt 42);
                    ("profitMargin", PFloat (float_of_ratio 444 10))]);
   ("year", PDict [("totalRevenue", PFloat (float_of_ratio 18564000 100));
                   ("totalProfit", PFloat (float_of_ratio 8215000 100));
                   ("salesCount", PInt 520);
                   ("profitMargin", PFloat (float_of_ratio 442 10))])].

Definition view_analytics_test (rt : runtime) (period : string) : res string :=
  (data <~ py_get (PDict mock_responses) period (PDict []) ;;
   revenue <~ py_get data "totalRevenue" (PInt 0) ;;
   revenue <~ format_fixed 2 revenue ;;
   profit <~ py_get data "totalProfit" (PInt 0) ;;
   profit <~ format_fixed 2 profit ;;
   sales <~ py_get data "salesCount" (PInt 0) ;;
   margin <~ py_get data "profitMargin" (PInt 0) ;;
   margin <~ format_fixed 1 margin ;;
   Ok ("Analytics for " ++ period ++ ": "
       ++ "Revenue: $" ++ revenue ++ ", "
       ++ "Profit: $" ++ profit ++ ", "
       ++ "Sales: " ++ py_str rt sales ++ ", "
       ++ "Profit margin: " ++ margin ++ "%"))%res.

(** ** Calls as the hosting runtime makes them *)





(** The error of the first value, in rendering order, that the
    fixed-point format rejects; [digits] is the precision of the format
    code. *)
Fixpoint first_format_error (fields : list (nat * pyval)) : option pyexn :=
  match fields with
  | [] => None
  | (digits, v) :: rest =>
      match format_fixed digits v with
      | Err e => Some e
      | Ok _ => first_format_error rest
      end
  end.

(** ** Further vocabulary *)

(** The HTTP verb of each tool. *)
Definition method_of (op : operation) : string :=
  match op with
  | AddProduct _ _ _ _ _ _ _ _ _ | RecordSale _ _ _ => "POST"
  | UpdateProduct _ _ _ _ _ _ _ _ _ _ | UpdateInventory _ _ _ => "PUT"
  | DeleteProduct _ => "DELETE"
  | _ => "GET"
  end.

Definition carries_body (method : string) : bool :=
  String.eqb method "POST" || String.eqb method "PUT".

(** The warnings a tool logs before its request. *)
Definition op_warnings (rt : runtime) (op : operation) : list (level * string) :=
  match op with
  | AddProduct _ _ _ _ _ _ cost_breakdown _ _ => breakdown_warnings rt cost_breakdown
  | UpdateProduct _ _ _ _ _ _ _ cost_breakdown _ _ => breakdown_warnings rt cost_breakdown
  | _ => []
  end.

(** [if o:] read as text: the supplied value, or nothing. *)
Definition text_if_given (label : string) (o : option string) : string :=
  match o with
  | Some s => if str_nonempty s then label ++ s else ""
  | None => ""
  end.

(** An entry of a cost breakdown as the service echoes it. *)
Definition breakdown_entry (category amount : pyval) : pyval :=
  PDict [("category", category); ("amount", amount)].

Definition has_both_keys (item : pyval) : bool :=
  match item with
  | PDict d => has_key d "category" && has_key d "amount"
  | _ => false
  end.

(** A line of [get_top_products] carries its rank. *)
Definition ranked (start : Z) (lines : list string) : Prop :=
  forall k line,
    nth_error lines k = Some line ->
    String.prefix (str_of_Z (start + Z.of_nat k) ++ ". ") line = true.

Definition three_products : list pyval := map sample_product ["a"; "b"; "c"].

Definition three_sales : list pyval := map sample_sale [1; 2; 3].

Definition two_ranked : list pyval :=
  [PDict [("name", PStr "Silk Saree"); ("sku", PStr "SR-001"); ("profit", PInt 120)];
   PDict [("name", PStr "Bath Towel"); ("profit", PInt 45)]].

Definition named_sale : list (string * pyval) :=
  [("quantity", PInt 2); ("totalSaleValue", PInt 100); ("profit", PInt 40);
   ("productId", PDict [("name", PStr "Bath Towel")])].

(** * Properties *)

Create HintDb tools.
#[local] Hint Unfold add_product add_product_reply update_product update_product_reply
  update_inventory search_products
  list_products get_product delete_product record_sale get_sales_history
  get_recent_sales get_inventory_summary view_analytics get_profit_stats
  get_monthly_profits get_top_products get_low_stock_alerts get_sales_trends : tools.

Section Properties.

Variable rt : runtime.

(** ** The transport helper *)

Lemma supported_cases (method : string) :
  supported method = true ->
  method = "GET" \/ method = "POST" \/ method = "PUT" \/ method = "DELETE".
Proof.
  unfold supported, supported_methods. simpl.
  destruct (String.eqb_spec method "GET"); [auto |].
  destruct (String.eqb_spec method "POST"); [auto |].
  destruct (String.eqb_spec method "PUT"); [auto |].
  destruct (String.eqb_spec method "DELETE"); [auto |].
  discriminate.
Qed.

Lemma unsupported_cases (method : string) :
  supported method = false ->
  String.eqb method "GET" = false /\ String.eqb method "POST" = false /\
  String.eqb method "PUT" = false /\ String.eqb method "DELETE" = false.
Proof.
  unfold supported, supported_methods. simpl.
  destruct (String.eqb method "GET"), (String.eqb method "POST"),
    (String.eqb method "PUT"), (String.eqb method "DELETE"); simpl;
    intros; try discriminate; auto.
Qed.

Lemma attempt_spec (endpoint : string) (r : request) (w : world) :
  attempt rt endpoint r w =
  match exchange rt r with
  | Responded body => (Returns body, mk_world (logged w) (append_item (sent w) r))
  | Faulted detail =>
      (Returns (failure detail),
       mk_world (append_item (logged w)
                   (ERROR, "API call failed: " ++ endpoint ++ " - " ++ detail))
                (append_item (sent w) r))
  end.
Proof. unfold attempt. destruct (exchange rt r); reflexivity. Qed.

Lemma call_supported (endpoint method : string) (data : pyval) (w : world) :
  supported method = true ->
  exists r,
    req_method r = method /\ req_url r = API_BASE_URL rt ++ endpoint /\
    call_inventory_api rt endpoint method data w = attempt rt endpoint r w.
Proof.
  intros H. apply supported_cases in H.
  destruct H as [-> | [-> | [-> | ->]]]; unfold call_inventory_api; simpl;
    eexists; (split; [| split; [| reflexivity]]); reflexivity.
Qed.

Lemma call_unsupported (endpoint method : string) (data : pyval) (w : world) :
  supported method = false ->
  call_inventory_api rt endpoint method data w = (Returns PNone, w).
Proof.
  intros H. apply unsupported_cases in H. destruct H as (H1 & H2 & H3 & H4).
  unfold call_inventory_api. rewrite H1, H2, H3, H4. reflexivity.
Qed.

Lemma call_returns (endpoint method : string) (data : pyval) (w : world) :
  exists v w', call_inventory_api rt endpoint method data w = (Returns v, w').
Proof.
  destruct (supported method) eqn:Hm.
  - destruct (call_supported endpoint method data w Hm) as (r & _ & _ & ->).
    rewrite attempt_spec. destruct (exchange rt r); eexists; eexists; reflexivity.
  - rewrite (call_unsupported _ _ _ _ Hm). eexists; eexists; reflexivity.
Qed.

Lemma bind_call_faulted {A} (K : pyval -> M A) (endpoint method : string)
    (data : pyval) (w : world) (detail : string) :
  supported method = true ->
  (forall r, exchange rt r = Faulted detail) ->
  exists w', bind (call_inventory_api rt endpoint method data) K w = K (failure detail) w'.
Proof.
  intros Hm Hdown.
  destruct (call_supported endpoint method data w Hm) as (r & _ & _ & Hcall).
  unfold bind. rewrite Hcall, attempt_spec, Hdown. eexists. reflexivity.
Qed.

Lemma bind_call_responded {A} (K : pyval -> M A) (endpoint method : string)
    (data : pyval) (w : world) (body : pyval) :
  supported method = true ->
  (forall r, exchange rt r = Responded body) ->
  exists w', bind (call_inventory_api rt endpoint method data) K w = K body w'.
Proof.
  intros Hm Hup.
  destruct (call_supported endpoint method data w Hm) as (r & _ & _ & Hcall).
  unfold bind. rewrite Hcall, attempt_spec, Hup. eexists. reflexivity.
Qed.

Lemma parse_cost_breakdown_returns (cost_breakdown : option string)
    (data : list (string * pyval)) (w : world) :
  exists data' w', parse_cost_breakdown rt cost_breakdown data w = (Returns data', w').
Proof.
  unfold parse_cost_breakdown.
  destruct cost_breakdown as [cb |]; [| eexists; eexists; reflexivity].
  destruct (str_nonempty cb); [| eexists; eexists; reflexivity].
  destruct (json_loads rt cb); eexists; eexists; reflexivity.
Qed.

Lemma bind_parse {A} (K : list (string * pyval) -> M A) (cost_breakdown : option string)
    (data : list (string * pyval)) (w : world) :
  exists data' w', bind (parse_cost_breakdown rt cost_breakdown data) K w = K data' w'.
Proof.
  destruct (parse_cost_breakdown_returns cost_breakdown data w) as (d' & w' & H).
  exists d', w'. unfold bind. rewrite H. reflexivity.
Qed.

(** Steps over the cost-breakdown parsing that opens the two product
    writers. *)
Ltac enter_op :=
  match goal with
  | |- context [bind (parse_cost_breakdown ?rt ?cb ?d) ?K ?w] =>
      let d' := fresh "data'" in
      let w' := fresh "w'" in
      let H := fresh "Hparse" in
      destruct (bind_parse K cb d w) as (d' & w' & H); rewrite H; clear H
  | _ => idtac
  end.

Ltac call_faulted Hdown :=
  match goal with
  | |- context [bind (call_inventory_api ?rt ?e ?m ?data) ?K ?w0] =>
      let w1 := fresh "w1" in
      destruct (bind_call_faulted K e m data w0 _ eq_refl Hdown) as (w1 & ->)
  end.

Ltac call_responded Hup :=
  match goal with
  | |- context [bind (call_inventory_api ?rt ?e ?m ?data) ?K ?w0] =>
      let w1 := fresh "w1" in
      destruct (bind_call_responded K e m data w0 _ eq_refl Hup) as (w1 & ->)
  end.

Ltac open_tool := unfold invoke; autounfold with tools; cbv zeta; enter_op.

Lemma invoke_faulted (op : operation) (w : world) (detail : string) :
  (forall r, exchange rt r = Faulted detail) ->
  fst (invoke rt op w) = ToolError (failure_prefix op ++ detail).
Proof.
  intros Hdown.
  destruct op; open_tool; call_faulted Hdown; reflexivity.
Qed.

(** ** Remote-reported failures *)

Lemma no_tool_ret {A} (a : A) : no_tool (ret a).
Proof. intros w. reflexivity. Qed.

Lemma no_tool_lift {A} (r : res A) : no_tool (lift r).
Proof. intros w. destruct r; reflexivity. Qed.

Lemma no_tool_bind {A B} (c : M A) (k : A -> M B) :
  no_tool c -> (forall a, no_tool (k a)) -> no_tool (bind c k).
Proof.
  intros Hc Hk w. unfold bind. specialize (Hc w).
  destruct (c w) as [[a | msg | e] w']; simpl in *.
  - apply Hk.
  - discriminate.
  - reflexivity.
Qed.

Ltac no_tool_tac :=
  repeat first
    [ apply no_tool_ret
    | apply no_tool_lift
    | apply no_tool_bind; [| intro]
    | match goal with
      | |- no_tool (if ?b then _ else _) => destruct b
      end ].

Lemma bind_lift_get {A} (d : list (string * pyval)) (k : string) (default : pyval)
    (K : pyval -> M A) (w : world) :
  bind (lift (py_get (PDict d) k default)) K w = K (get_or d k default) w.
Proof. reflexivity. Qed.

Lemma raise_failed_dict {A} (what : string) (d : list (string * pyval)) (w : world) :
  @raise_failed rt A what (PDict d) w =
  (ToolError (what ++ py_str rt (get_or d "error" (PStr "Unknown error"))), w).
Proof. reflexivity. Qed.

Lemma invoke_failure (op : operation) (w : world) (d : list (string * pyval)) :
  (forall r, exchange rt r = Responded (PDict d)) ->
  truthy (get_or d "success" PNone) = false ->
  fst (invoke rt op w) =
  ToolError (failure_prefix op ++ py_str rt (get_or d "error" (PStr "Unknown error"))).
Proof.
  intros Hup Hs.
  destruct op; open_tool; call_responded Hup;
    rewrite bind_lift_get, Hs, raise_failed_dict; reflexivity.
Qed.

Lemma invoke_success (op : operation) (w : world) (d : list (string * pyval)) :
  (forall r, exchange rt r = Responded (PDict d)) ->
  truthy (get_or d "success" PNone) = true ->
  is_tool_error (fst (invoke rt op w)) = false.
Proof.
  intros Hup Hs.
  destruct op; open_tool; call_responded Hup; rewrite bind_lift_get, Hs;
    match goal with
    | |- is_tool_error (fst (?c ?w)) = false => revert w; change (no_tool c)
    end; no_tool_tac.
Qed.

Lemma invoke_not_dict (op : operation) (w : world) (body : pyval) :
  (forall r, exchange rt r = Responded body) ->
  is_dict body = false ->
  fst (invoke rt op w) = Uncaught AttributeError.
Proof.
  intros Hup Hd.
  destruct op; open_tool; call_responded Hup;
    destruct body; try discriminate; reflexivity.
Qed.

(** ** Claims about the transport helper and the failure path *)

(** C1: a fault raised during the HTTP exchange never escapes
    [call_inventory_api]. The helper always returns a value; for a
    supported method it issues one request, and when that exchange
    faults it returns the failure dictionary
    [{"success": False, "error": detail}] and logs the endpoint and the
    detail at error severity. Every tool then ends in a [ToolError]
    that carries the detail, never in an uncaught exception. *)
Theorem transport_fault_contained :
  (forall endpoint method data w,
      is_returns (fst (call_inventory_api rt endpoint method data w)) = true)
  /\
  (forall endpoint method data w,
      supported method = true ->
      exists r,
        req_method r = method /\
        req_url r = API_BASE_URL rt ++ endpoint /\
        sent (snd (call_inventory_api rt endpoint method data w))
        = append_item (sent w) r /\
        forall detail,
          exchange rt r = Faulted detail ->
          fst (call_inventory_api rt endpoint method data w)
          = Returns (PDict [("success", PBool false); ("error", PStr detail)]) /\
          logged (snd (call_inventory_api rt endpoint method data w))
          = append_item (logged w)
              (ERROR, "API call failed: " ++ endpoint ++ " - " ++ detail))
  /\
  (forall op w detail,
      (forall r, exchange rt r = Faulted detail) ->
      fst (invoke rt op w) = ToolError (failure_prefix op ++ detail)).
Proof.
  split; [| split].
  - intros endpoint method data w.
    destruct (call_returns endpoint method data w) as (v & w' & ->). reflexivity.
  - intros endpoint method data w Hm.
    destruct (call_supported endpoint method data w Hm) as (r & Hr1 & Hr2 & ->).
    exists r. rewrite attempt_spec. repeat split; try assumption.
    + destruct (exchange rt r); reflexivity.
    + rewrite H. reflexivity.
    + rewrite H. reflexivity.
  - intros op w detail Hdown. apply invoke_faulted. exact Hdown.
Qed.

(** C10, as the code has it: for the four supported verbs
    [call_inventory_api] issues one request and returns the decoded
    response as it is, or the failure dictionary; the result is a
    dictionary when the service answers with a JSON object. For any
    other method it returns [None], issues no request and logs
    nothing. *)
Theorem call_inventory_api_result (endpoint method : string) (data : pyval) (w : world) :
  (supported method = true ->
   exists r,
     req_method r = method /\
     req_url r = API_BASE_URL rt ++ endpoint /\
     sent (snd (call_inventory_api rt endpoint method data w)) = append_item (sent w) r /\
     fst (call_inventory_api rt endpoint method data w)
     = Returns (match exchange rt r with
                | Responded body => body
                | Faulted detail =>
                    PDict [("success", PBool false); ("error", PStr detail)]
                end) /\
     ((forall body, exchange rt r = Responded body -> is_dict body = true) ->
      exists d, fst (call_inventory_api rt endpoint method data w) = Returns (PDict d)))
  /\
  (supported method = false ->
   call_inventory_api rt endpoint method data w = (Returns PNone, w)).
Proof.
  split.
  - intros Hm.
    destruct (call_supported endpoint method data w Hm) as (r & Hr1 & Hr2 & ->).
    exists r. rewrite attempt_spec. repeat split; try assumption.
    + destruct (exchange rt r); reflexivity.
    + destruct (exchange rt r); reflexivity.
    + intros Hobj. destruct (exchange rt r) as [body | detail] eqn:He.
      * specialize (Hobj body eq_refl). destruct body; try discriminate.
        eexists. reflexivity.
      * eexists. reflexivity.
  - apply call_unsupported.
Qed.

(** C2, as the code has it: when the service answers with a JSON object,
    a tool raises [ToolError] exactly when the [success] field is absent
    or falsy; the message is the tool's prefix followed by the [error]
    field, verbatim when it is a string, and by [Unknown error] when the
    field is absent. With a truthy [success] no [ToolError] is raised.
    An answer that is not a JSON object ends in [AttributeError]. *)
Theorem tool_error_iff_success_falsy (op : operation) (w : world) (body : pyval) :
  (forall r, exchange rt r = Responded body) ->
  (is_dict body = false -> fst (invoke rt op w) = Uncaught AttributeError)
  /\
  (forall d,
      body = PDict d ->
      is_tool_error (fst (invoke rt op w)) = negb (truthy (get_or d "success" PNone))
      /\
      (truthy (get_or d "success" PNone) = false ->
       (forall e, dict_get d "error" = Some (PStr e) ->
                  fst (invoke rt op w) = ToolError (failure_prefix op ++ e))
       /\
       (dict_get d "error" = None ->
        fst (invoke rt op w) = ToolError (failure_prefix op ++ "Unknown error")))).
Proof.
  intros Hup. split.
  - intros Hd. apply invoke_not_dict with (body := body); assumption.
  - intros d ->. split.
    + destruct (truthy (get_or d "success" PNone)) eqn:Hs.
      * apply invoke_success with (d := d); assumption.
      * rewrite (invoke_failure op w d Hup Hs). reflexivity.
    + intros Hs. rewrite (invoke_failure op w d Hup Hs). unfold get_or.
      split.
      * intros e ->. reflexivity.
      * intros ->. reflexivity.
Qed.

(** ** Two-decimal currency text *)

Lemma all_digits_uint (d : Decimal.uint) : all_digits (NilEmpty.string_of_uint d) = true.
Proof. induction d; simpl; auto. Qed.

Lemma str_of_N_digits (n : N) :
  all_digits (str_of_N n) = true /\ str_nonempty (str_of_N n) = true.
Proof.
  unfold str_of_N, NilZero.string_of_uint.
  destruct (N.to_uint n) eqn:E; try (split; reflexivity);
    (split; [apply all_digits_uint | reflexivity]).
Qed.

Lemma digit_char_is_digit (x : Z) : 0 <= x < 10 -> is_digit (digit_char x) = true.
Proof.
  intros H.
  assert (x = 0 \/ x = 1 \/ x = 2 \/ x = 3 \/ x = 4 \/ x = 5 \/ x = 6 \/ x = 7
          \/ x = 8 \/ x = 9) as Hx by lia.
  repeat (destruct Hx as [-> | Hx]; [reflexivity |]). subst. reflexivity.
Qed.

Lemma frac_digits_two (x : Z) :
  exists a b, frac_digits 2 x = String a (String b EmptyString)
              /\ is_digit a = true /\ is_digit b = true.
Proof.
  exists (digit_char ((x / 10) mod 10)), (digit_char (x mod 10)).
  split; [reflexivity |].
  split; apply digit_char_is_digit; apply Z.mod_pos_bound; lia.
Qed.

Lemma digit_not_minus (c : ascii) : is_digit c = true -> Ascii.eqb c "-" = false.
Proof.
  destruct c as [[|] [|] [|] [|] [|] [|] [|] [|]]; intros H; try reflexivity; discriminate H.
Qed.

Lemma two_decimals_from_digits (ds : string) (a b : ascii) (seen : bool) :
  all_digits ds = true ->
  seen || str_nonempty ds = true ->
  is_digit a = true -> is_digit b = true ->
  two_decimals_from seen (ds ++ "." ++ String a (String b EmptyString)) = true.
Proof.
  revert seen. induction ds as [| c ds IH]; intros seen Hd Hs Ha Hb.
  - simpl in Hs. rewrite orb_false_r in Hs. subst seen.
    simpl. rewrite Ha, Hb. reflexivity.
  - simpl in Hd. apply andb_true_iff in Hd. destruct Hd as [Hc Hd].
    simpl. rewrite Hc. apply IH; auto.
Qed.

Lemma two_decimals_fixed (s : bool) (u : Z) : two_decimals (fixed_of_units 2 s u) = true.
Proof.
  unfold fixed_of_units.
  destruct (frac_digits_two (u mod 10 ^ Z.of_nat 2)) as (a & b & -> & Ha & Hb).
  destruct (str_of_N_digits (Z.to_N (u / 10 ^ Z.of_nat 2))) as [Hd Hn].
  set (ds := str_of_N (Z.to_N (u / 10 ^ Z.of_nat 2))) in *.
  destruct s; simpl sign_str.
  - simpl. apply two_decimals_from_digits; auto.
  - assert (two_decimals_from false (ds ++ "." ++ String a (String b EmptyString)) = true)
      as Hfrom by (apply two_decimals_from_digits; auto).
    destruct ds as [| c ds']; [discriminate |].
    simpl in Hd. apply andb_true_iff in Hd. destruct Hd as [Hc _].
    change ("" ++ String c ds' ++ "." ++ String a (String b ""))
      with (String c (ds' ++ "." ++ String a (String b ""))).
    unfold two_decimals. rewrite (digit_not_minus c Hc). exact Hfrom.
Qed.

Lemma format_two_decimals (v : pyval) :
  finite_number v = true ->
  exists s, format_fixed 2 v = Ok s /\ two_decimals s = true.
Proof.
  destruct v; simpl; try discriminate.
  - destruct (float_of_int z) as [f | e]; [| discriminate].
    intros Hf. exists (format_float_fixed 2 f). split; [reflexivity |].
    destruct f; try discriminate; apply two_decimals_fixed.
  - intros Hf. exists (format_float_fixed 2 f). split; [reflexivity |].
    destruct f; try discriminate; apply two_decimals_fixed.
Qed.

Lemma shown_amount_spec (d : list (string * pyval)) (k : string) :
  money_field d k = true ->
  format_fixed 2 (get_or d k (PInt 0)) = Ok (shown_amount d k)
  /\ two_decimals (shown_amount d k) = true
  /\ (dict_get d k = None -> shown_amount d k = "0.00").
Proof.
  unfold money_field, shown_amount, get_or.
  destruct (dict_get d k) as [v |].
  - intros Hv. destruct (format_two_decimals v Hv) as (s & -> & Hs).
    repeat split; auto. discriminate.
  - intros _. repeat split; reflexivity.
Qed.

(** ** Rendering *)

Ltac success_path Hup Hs :=
  open_tool; call_responded Hup; rewrite bind_lift_get, Hs.

Ltac show_amounts :=
  repeat match goal with
         | H : money_field ?d ?k = true |- _ =>
             let E := fresh "Hshown" in
             destruct (shown_amount_spec d k H) as (E & _ & _);
             rewrite ?E; clear H
         end.

Lemma record_sale_text (product_name : string) (quantity : Z)
    (sell_price : option spec_float) (w : world) (d sale : list (string * pyval)) :
  (forall r, exchange rt r = Responded (PDict d)) ->
  truthy (get_or d "success" PNone) = true ->
  get_or d "data" (PDict []) = PDict sale ->
  money_field sale "totalSaleValue" = true ->
  money_field sale "profit" = true ->
  fst (record_sale rt product_name quantity sell_price w)
  = Returns ("Sale recorded! Sold " ++ str_of_Z quantity ++ " units of " ++ product_name
             ++ ". " ++ "Total: $" ++ shown_amount sale "totalSaleValue" ++ ", "
             ++ "Profit: $" ++ shown_amount sale "profit").
Proof.
  intros Hup Hs Hdata Ht Hp.
  success_path Hup Hs. rewrite bind_lift_get, Hdata.
  cbn [py_get rbind]. show_amounts. reflexivity.
Qed.

Lemma inventory_summary_text (w : world) (d summary : list (string * pyval)) :
  (forall r, exchange rt r = Responded (PDict d)) ->
  truthy (get_or d "success" PNone) = true ->
  get_or d "data" (PDict []) = PDict summary ->
  money_field summary "totalValue" = true ->
  fst (get_inventory_summary rt w)
  = Returns ("Inventory Summary: " ++ py_str rt (get_or summary "totalProducts" (PInt 0))
             ++ " products, "
             ++ "Total value: $" ++ shown_amount summary "totalValue" ++ ", "
             ++ "Low stock items: " ++ py_str rt (get_or summary "lowStockCount" (PInt 0))).
Proof.
  intros Hup Hs Hdata Hv.
  success_path Hup Hs. rewrite bind_lift_get, Hdata.
  cbn [py_get rbind]. show_amounts. reflexivity.
Qed.

Lemma view_analytics_text (period : string) (w : world)
    (d data : list (string * pyval)) (margin : string) :
  (forall r, exchange rt r = Responded (PDict d)) ->
  truthy (get_or d "success" PNone) = true ->
  get_or d "data" (PDict []) = PDict data ->
  money_field data "totalRevenue" = true ->
  money_field data "totalProfit" = true ->
  format_fixed 1 (get_or data "profitMargin" (PInt 0)) = Ok margin ->
  fst (view_analytics rt period w)
  = Returns ("Analytics for " ++ period ++ ": "
             ++ "Revenue: $" ++ shown_amount data "totalRevenue" ++ ", "
             ++ "Profit: $" ++ shown_amount data "totalProfit" ++ ", "
             ++ "Sales: " ++ py_str rt (get_or data "salesCount" (PInt 0)) ++ ", "
             ++ "Profit margin: " ++ margin ++ "%").
Proof.
  intros Hup Hs Hdata Hr Hp Hm.
  success_path Hup Hs. rewrite bind_lift_get, Hdata.
  cbn [py_get rbind]. show_amounts. rewrite Hm. reflexivity.
Qed.

Lemma profit_stats_text (period : string) (w : world) (d data : list (string * pyval)) :
  (forall r, exchange rt r = Responded (PDict d)) ->
  truthy (get_or d "success" PNone) = true ->
  get_or d "data" (PDict []) = PDict data ->
  money_field data "totalProfit" = true ->
  money_field data "totalRevenue" = true ->
  money_field data "totalCost" = true ->
  money_field data "averageProfit" = true ->
  fst (get_profit_stats rt period w)
  = Returns ("Profit stats for " ++ period ++ ": "
             ++ "Total profit: $" ++ shown_amount data "totalProfit" ++ ", "
             ++ "Revenue: $" ++ shown_amount data "totalRevenue" ++ ", "
             ++ "Cost: $" ++ shown_amount data "totalCost" ++ ", "
             ++ "Average profit per sale: $" ++ shown_amount data "averageProfit").
Proof.
  intros Hup Hs Hdata Hp Hr Hc Ha.
  success_path Hup Hs. rewrite bind_lift_get, Hdata.
  cbn [py_get rbind]. show_amounts. reflexivity.
Qed.

Lemma sale_product_name_dict (sale : list (string * pyval)) :
  sale_product_name (PDict sale)
  = Ok (match dict_get sale "productId" with
        | Some (PDict pid) => get_or pid "name" (PStr "Unknown")
        | _ => PStr "Unknown"
        end).
Proof.
  unfold sale_product_name. cbn [py_get rbind]. unfold get_or.
  destruct (dict_get sale "productId") as [[| | | | | |] |]; reflexivity.
Qed.

Lemma sales_history_line_text (sale : list (string * pyval)) :
  money_field sale "totalSaleValue" = true ->
  money_field sale "profit" = true ->
  exists name,
    sale_product_name (PDict sale) = Ok name /\
    sales_history_line rt (PDict sale)
    = Ok ("- " ++ py_str rt name ++ " (" ++ py_str rt (get_or sale "quantity" PNone)
          ++ " units, " ++ "$" ++ shown_amount sale "totalSaleValue"
          ++ ", Profit: $" ++ shown_amount sale "profit" ++ ")" ++ nl).
Proof.
  intros Ht Hp. eexists. split; [apply sale_product_name_dict |].
  unfold sales_history_line. rewrite sale_product_name_dict.
  cbn [py_get rbind]. show_amounts. reflexivity.
Qed.

Lemma recent_sales_line_text (sale : list (string * pyval)) :
  money_field sale "totalSaleValue" = true ->
  exists name,
    sale_product_name (PDict sale) = Ok name /\
    recent_sales_line rt (PDict sale)
    = Ok ("- " ++ py_str rt name ++ " "
          ++ "(" ++ py_str rt (get_or sale "quantity" PNone) ++ " units, $"
          ++ shown_amount sale "totalSaleValue" ++ ")" ++ nl).
Proof.
  intros Ht. eexists. split; [apply sale_product_name_dict |].
  unfold recent_sales_line. rewrite sale_product_name_dict.
  cbn [py_get rbind]. show_amounts. reflexivity.
Qed.

Lemma monthly_line_text (month_data : list (string * pyval)) :
  money_field month_data "profit" = true ->
  monthly_line rt (PDict month_data)
  = Ok ("- " ++ py_str rt (get_or month_data "month" (PStr "Unknown")) ++ ": $"
        ++ shown_amount month_data "profit" ++ nl).
Proof.
  intros Hp. unfold monthly_line. cbn [py_get rbind]. show_amounts. reflexivity.
Qed.

Lemma top_line_text (i : Z) (p : list (string * pyval)) :
  money_field p "profit" = true ->
  top_line rt (i, PDict p)
  = Ok (str_of_Z i ++ ". " ++ py_str rt (get_or p "name" (PStr "Unknown"))
        ++ " (SKU: " ++ py_str rt (get_or p "sku" (PStr "N/A"))
        ++ ", Profit: $" ++ shown_amount p "profit" ++ ")" ++ nl).
Proof.
  intros Hp. unfold top_line. cbn [py_get rbind]. show_amounts. reflexivity.
Qed.

(** C4, as the code has it: the tools that format currency with [.2f]
    ([record_sale], [get_inventory_summary], [view_analytics],
    [get_profit_stats] and the lines of [get_sales_history],
    [get_recent_sales], [get_monthly_profits], [get_top_products])
    show every currency field that is absent or a finite number with
    exactly two decimals, an absent one as [0.00]. *)
Theorem currency_two_decimals :
  (forall d k,
      money_field d k = true ->
      two_decimals (shown_amount d k) = true /\
      (dict_get d k = None -> shown_amount d k = "0.00"))
  /\
  (forall w d data,
      (forall r, exchange rt r = Responded (PDict d)) ->
      truthy (get_or d "success" PNone) = true ->
      get_or d "data" (PDict []) = PDict data ->
      (forall product_name quantity sell_price,
          money_field data "totalSaleValue" = true ->
          money_field data "profit" = true ->
          fst (record_sale rt product_name quantity sell_price w)
          = Returns ("Sale recorded! Sold " ++ str_of_Z quantity ++ " units of "
                     ++ product_name ++ ". "
                     ++ "Total: $" ++ shown_amount data "totalSaleValue" ++ ", "
                     ++ "Profit: $" ++ shown_amount data "profit"))
      /\
      (money_field data "totalValue" = true ->
       fst (get_inventory_summary rt w)
       = Returns ("Inventory Summary: "
                  ++ py_str rt (get_or data "totalProducts" (PInt 0)) ++ " products, "
                  ++ "Total value: $" ++ shown_amount data "totalValue" ++ ", "
                  ++ "Low stock items: "
                  ++ py_str rt (get_or data "lowStockCount" (PInt 0))))
      /\
      (forall period margin,
          money_field data "totalRevenue" = true ->
          money_field data "totalProfit" = true ->
          format_fixed 1 (get_or data "profitMargin" (PInt 0)) = Ok margin ->
          fst (view_analytics rt period w)
          = Returns ("Analytics for " ++ period ++ ": "
                     ++ "Revenue: $" ++ shown_amount data "totalRevenue" ++ ", "
                     ++ "Profit: $" ++ shown_amount data "totalProfit" ++ ", "
                     ++ "Sales: " ++ py_str rt (get_or data "salesCount" (PInt 0)) ++ ", "
                     ++ "Profit margin: " ++ margin ++ "%"))
      /\
      (forall period,
          money_field data "totalProfit" = true ->
          money_field data "totalRevenue" = true ->
          money_field data "totalCost" = true ->
          money_field data "averageProfit" = true ->
          fst (get_profit_stats rt period w)
          = Returns ("Profit stats for " ++ period ++ ": "
                     ++ "Total profit: $" ++ shown_amount data "totalProfit" ++ ", "
                     ++ "Revenue: $" ++ shown_amount data "totalRevenue" ++ ", "
                     ++ "Cost: $" ++ shown_amount data "totalCost" ++ ", "
                     ++ "Average profit per sale: $"
                     ++ shown_amount data "averageProfit")))
  /\
  (forall item,
      money_field item "totalSaleValue" = true ->
      (money_field item "profit" = true ->
       exists name,
         sale_product_name (PDict item) = Ok name /\
         sales_history_line rt (PDict item)
         = Ok ("- " ++ py_str rt name ++ " ("
               ++ py_str rt (get_or item "quantity" PNone)
               ++ " units, " ++ "$" ++ shown_amount item "totalSaleValue"
               ++ ", Profit: $" ++ shown_amount item "profit" ++ ")" ++ nl))
      /\
      (exists name,
          sale_product_name (PDict item) = Ok name /\
          recent_sales_line rt (PDict item)
          = Ok ("- " ++ py_str rt name ++ " "
                ++ "(" ++ py_str rt (get_or item "quantity" PNone) ++ " units, $"
                ++ shown_amount item "totalSaleValue" ++ ")" ++ nl)))
  /\
  (forall item i,
      money_field item "profit" = true ->
      monthly_line rt (PDict item)
      = Ok ("- " ++ py_str rt (get_or item "month" (PStr "Unknown")) ++ ": $"
            ++ shown_amount item "profit" ++ nl)
      /\
      top_line rt (i, PDict item)
      = Ok (str_of_Z i ++ ". " ++ py_str rt (get_or item "name" (PStr "Unknown"))
            ++ " (SKU: " ++ py_str rt (get_or item "sku" (PStr "N/A"))
            ++ ", Profit: $" ++ shown_amount item "profit" ++ ")" ++ nl)).
Proof.
  split; [| split; [| split]].
  - intros d k H. destruct (shown_amount_spec d k H) as (_ & H2 & H3). auto.
  - intros w d data Hup Hs Hdata. repeat split; intros.
    + apply record_sale_text with (d := d); assumption.
    + apply inventory_summary_text with (d := d); assumption.
    + apply view_analytics_text with (d := d); assumption.
    + apply profit_stats_text with (d := d); assumption.
  - intros item Ht. split.
    + intros Hp. apply sales_history_line_text; assumption.
    + apply recent_sales_line_text; assumption.
  - intros item i Hp. split.
    + apply monthly_line_text; assumption.
    + apply top_line_text; assumption.
Qed.

(** C8: on the sample payload [get_profit_stats] with period [month]
    returns a text that shows the four amounts with two decimals; the
    payload's numbers are the binary64 values nearest to the decimal
    literals. *)
Theorem profit_stats_round_trip (w : world) :
  (forall r, exchange rt r = Responded profit_payload) ->
  fst (get_profit_stats rt "month" w)
  = Returns ("Profit stats for month: Total profit: $6840.20, Revenue: $15420.50, "
             ++ "Cost: $8580.30, Average profit per sale: $163.00")
  /\
  (forall s, fst (get_profit_stats rt "month" w) = Returns s ->
             contains "$6840.20" s = true /\ contains "$15420.50" s = true /\
             contains "$8580.30" s = true /\ contains "$163.00" s = true)
  /\
  nearest_binary64 684020 100 (float_of_ratio 684020 100) = true /\
  nearest_binary64 1542050 100 (float_of_ratio 1542050 100) = true /\
  nearest_binary64 858030 100 (float_of_ratio 858030 100) = true /\
  nearest_binary64 163 1 (float_of_ratio 163 1) = true.
Proof.
  intros Hup.
  assert (fst (get_profit_stats rt "month" w)
          = Returns ("Profit stats for month: Total profit: $6840.20, Revenue: $15420.50, "
                     ++ "Cost: $8580.30, Average profit per sale: $163.00")) as Htext.
  { unfold get_profit_stats. call_responded Hup. vm_compute. reflexivity. }
  split; [exact Htext |]. split.
  - intros s Hs. rewrite Htext in Hs. injection Hs as <-.
    vm_compute. auto.
  - vm_compute. auto.
Qed.

(** ** Listings *)

Lemma append_assoc (a b c : string) : (a ++ b) ++ c = a ++ b ++ c.
Proof. induction a as [| x a IH]; simpl; [| rewrite IH]; reflexivity. Qed.

Lemma append_empty_r (a : string) : a ++ "" = a.
Proof. induction a as [| x a IH]; simpl; [| rewrite IH]; reflexivity. Qed.

Lemma for_append_lines {A} (line : A -> res string) (l : list A) :
  forall (lines : list string) (response : string),
    map_res line l = Ok lines ->
    for_append line l response = Ok (response ++ text_of lines).
Proof.
  induction l as [| x l IH]; intros lines response H; simpl in *.
  - injection H as <-. simpl. rewrite append_empty_r. reflexivity.
  - destruct (line x) as [s |]; simpl in *; [| discriminate].
    destruct (map_res line l) as [ys |]; simpl in *; [| discriminate].
    injection H as <-. rewrite (IH ys (response ++ s) eq_refl).
    simpl. rewrite append_assoc. reflexivity.
Qed.

Lemma map_res_Forall2 {A B} (f : A -> res B) (P : A -> bool) (R : A -> B -> Prop) :
  (forall x, P x = true -> exists y, f x = Ok y /\ R x y) ->
  forall l, forallb P l = true ->
            exists ys, map_res f l = Ok ys /\ Forall2 R l ys.
Proof.
  intros Hf. induction l as [| x l IH]; simpl; intros H.
  - exists []. split; [reflexivity | constructor].
  - apply andb_true_iff in H. destruct H as [Hx Hl].
    destruct (Hf x Hx) as (y & -> & Hy). destruct (IH Hl) as (ys & -> & Hys).
    exists (y :: ys). split; [reflexivity | constructor; assumption].
Qed.

Lemma map_res_length {A B} (f : A -> res B) (l : list A) :
  forall ys, map_res f l = Ok ys -> List.length ys = List.length l.
Proof.
  induction l as [| x l IH]; simpl; intros ys H.
  - injection H as <-. reflexivity.
  - destruct (f x); simpl in H; [| discriminate].
    destruct (map_res f l) as [zs |]; simpl in H; [| discriminate].
    injection H as <-. simpl. rewrite (IH zs eq_refl). reflexivity.
Qed.

Lemma preview_with_remainder_spec (header : Z -> string) (line : pyval -> res string)
    (more : Z -> string) (items : list pyval) (lines : list string) :
  map_res line (firstn 5 items) = Ok lines ->
  preview_with_remainder header line more (PList items)
  = Ok (let n := Z.of_nat (List.length items) in
        if 5 <? n then header n ++ text_of lines ++ more (n - 5)
        else header n ++ text_of lines).
Proof.
  intros H. unfold preview_with_remainder. cbn [py_len py_slice_to py_iter rbind].
  rewrite (for_append_lines line _ lines _ H). cbn [rbind].
  destruct (5 <? Z.of_nat (List.length items)); [rewrite append_assoc |]; reflexivity.
Qed.

Lemma product_lines (line : pyval -> res string) (items : list pyval) :
  (forall p, is_dict p = true -> exists s, line p = Ok s) ->
  all_dicts items = true ->
  exists lines, map_res line items = Ok lines /\ List.length lines = List.length items.
Proof.
  intros Hline Hd.
  destruct (map_res_Forall2 line is_dict (fun _ _ => True)) with (l := items)
    as (lines & Hl & _).
  - intros p Hp. destruct (Hline p Hp) as (s & Hs). exists s. auto.
  - exact Hd.
  - exists lines. split; [exact Hl | apply (map_res_length _ _ _ Hl)].
Qed.

Lemma search_line_dict (p : pyval) : is_dict p = true -> exists s, search_line rt p = Ok s.
Proof. destruct p; try discriminate. intros _. eexists. reflexivity. Qed.

Lemma list_line_dict (p : pyval) : is_dict p = true -> exists s, list_line rt p = Ok s.
Proof. destruct p; try discriminate. intros _. eexists. reflexivity. Qed.

Lemma low_stock_line_dict (p : pyval) :
  is_dict p = true -> exists s, low_stock_line rt p = Ok s.
Proof. destruct p; try discriminate. intros _. eexists. reflexivity. Qed.

Lemma firstn_5_length {A} (l : list A) :
  (5 < List.length l)%nat -> List.length (firstn 5 l) = 5%nat.
Proof. intros H. rewrite length_firstn. lia. Qed.

Lemma more_than_five (items : list pyval) :
  (5 < List.length items)%nat ->
  (5 <? Z.of_nat (List.length items)) = true /\ truthy (PList items) = true.
Proof.
  intros H. split.
  - apply Z.ltb_lt. lia.
  - destruct items; [simpl in H; lia | reflexivity].
Qed.

Lemma nonempty_truthy (items : list pyval) : items <> [] -> truthy (PList items) = true.
Proof. destruct items; [congruence | reflexivity]. Qed.

Lemma more_than_five_nonempty (items : list pyval) :
  (5 < List.length items)%nat -> items <> [].
Proof. destruct items; simpl; [lia | discriminate]. Qed.

Ltac data_path Hdata Hitems :=
  rewrite bind_lift_get, Hdata;
  rewrite (proj2 (more_than_five _ Hitems)); cbn [negb].

Ltac data_path_nonempty Hdata Hne :=
  rewrite bind_lift_get, Hdata;
  rewrite (nonempty_truthy _ Hne); cbn [negb].

Lemma no_results (op : operation) (sentence : string) (w : world)
    (d : list (string * pyval)) :
  no_results_sentence op = Some sentence ->
  (forall r, exchange rt r = Responded (PDict d)) ->
  truthy (get_or d "success" PNone) = true ->
  truthy (get_or d "data" (PList [])) = false ->
  fst (invoke rt op w) = Returns sentence.
Proof.
  intros Hsent Hup Hs Hz.
  destruct op; try discriminate Hsent; injection Hsent as <-;
    success_path Hup Hs; rewrite bind_lift_get, Hz; reflexivity.
Qed.

Lemma search_products_preview (search_term type : option string) (low_stock : bool)
    (w : world) (d : list (string * pyval)) (items : list pyval) :
  (forall r, exchange rt r = Responded (PDict d)) ->
  truthy (get_or d "success" PNone) = true ->
  get_or d "data" (PList []) = PList items ->
  (5 < List.length items)%nat ->
  all_dicts (firstn 5 items) = true ->
  exists lines,
    map_res (search_line rt) (firstn 5 items) = Ok lines /\
    List.length lines = 5%nat /\
    fst (search_products rt search_term type low_stock w)
    = Returns ("Found " ++ str_of_Z (Z.of_nat (List.length items)) ++ " product(s):" ++ nl
               ++ text_of lines
               ++ "... and " ++ str_of_Z (Z.of_nat (List.length items) - 5) ++ " more.").
Proof.
  intros Hup Hs Hdata Hitems Hd.
  destruct (product_lines _ _ search_line_dict Hd) as (lines & Hlines & Hlen).
  exists lines. split; [exact Hlines |]. split.
  - rewrite Hlen. apply firstn_5_length. exact Hitems.
  - success_path Hup Hs. data_path Hdata Hitems.
    rewrite (preview_with_remainder_spec _ _ _ _ _ Hlines). cbv zeta.
    rewrite (proj1 (more_than_five _ Hitems)). cbn [lift fst].
    rewrite !append_assoc. reflexivity.
Qed.

Lemma list_products_preview (type : option string) (low_stock : bool)
    (w : world) (d : list (string * pyval)) (items : list pyval) :
  (forall r, exchange rt r = Responded (PDict d)) ->
  truthy (get_or d "success" PNone) = true ->
  get_or d "data" (PList []) = PList items ->
  (5 < List.length items)%nat ->
  all_dicts (firstn 5 items) = true ->
  exists lines,
    map_res (list_line rt) (firstn 5 items) = Ok lines /\
    List.length lines = 5%nat /\
    fst (list_products rt type low_stock w)
    = Returns ("Found " ++ str_of_Z (Z.of_nat (List.length items)) ++ " product(s):" ++ nl
               ++ text_of lines
               ++ "... and " ++ str_of_Z (Z.of_nat (List.length items) - 5) ++ " more.").
Proof.
  intros Hup Hs Hdata Hitems Hd.
  destruct (product_lines _ _ list_line_dict Hd) as (lines & Hlines & Hlen).
  exists lines. split; [exact Hlines |]. split.
  - rewrite Hlen. apply firstn_5_length. exact Hitems.
  - success_path Hup Hs. data_path Hdata Hitems.
    rewrite (preview_with_remainder_spec _ _ _ _ _ Hlines). cbv zeta.
    rewrite (proj1 (more_than_five _ Hitems)). cbn [lift fst].
    rewrite !append_assoc. reflexivity.
Qed.

Lemma low_stock_alerts_preview (threshold : Z)
    (w : world) (d : list (string * pyval)) (items : list pyval) :
  (forall r, exchange rt r = Responded (PDict d)) ->
  truthy (get_or d "success" PNone) = true ->
  get_or d "data" (PList []) = PList items ->
  (5 < List.length items)%nat ->
  all_dicts (firstn 5 items) = true ->
  exists lines,
    map_res (low_stock_line rt) (firstn 5 items) = Ok lines /\
    List.length lines = 5%nat /\
    fst (get_low_stock_alerts rt threshold w)
    = Returns (str_of_Z (Z.of_nat (List.length items)) ++ " low stock alert(s):" ++ nl
               ++ text_of lines
               ++ "... and " ++ str_of_Z (Z.of_nat (List.length items) - 5)
               ++ " more items need restocking.").
Proof.
  intros Hup Hs Hdata Hitems Hd.
  destruct (product_lines _ _ low_stock_line_dict Hd) as (lines & Hlines & Hlen).
  exists lines. split; [exact Hlines |]. split.
  - rewrite Hlen. apply firstn_5_length. exact Hitems.
  - success_path Hup Hs. data_path Hdata Hitems.
    rewrite (preview_with_remainder_spec _ _ _ _ _ Hlines). cbv zeta.
    rewrite (proj1 (more_than_five _ Hitems)). cbn [lift fst].
    rewrite !append_assoc. reflexivity.
Qed.

Lemma sales_history_text (product_name start_date end_date : option string)
    (limit : Z) (w : world) (d : list (string * pyval)) (items : list pyval)
    (lines : list string) :
  (forall r, exchange rt r = Responded (PDict d)) ->
  truthy (get_or d "success" PNone) = true ->
  get_or d "data" (PList []) = PList items ->
  items <> [] ->
  map_res (sales_history_line rt) (firstn 5 items) = Ok lines ->
  fst (get_sales_history rt product_name start_date end_date limit w)
  = Returns ("Found " ++ str_of_Z (Z.of_nat (List.length items)) ++ " sale(s):" ++ nl
             ++ text_of lines).
Proof.
  intros Hup Hs Hdata Hne Hlines.
  success_path Hup Hs. data_path_nonempty Hdata Hne.
  cbn [py_len py_slice_to py_iter rbind].
  rewrite (for_append_lines _ _ lines _ Hlines). cbn [lift fst].
  rewrite !append_assoc. reflexivity.
Qed.

Lemma recent_sales_text (limit : Z) (w : world) (d : list (string * pyval))
    (items : list pyval) (lines : list string) :
  (forall r, exchange rt r = Responded (PDict d)) ->
  truthy (get_or d "success" PNone) = true ->
  get_or d "data" (PList []) = PList items ->
  items <> [] ->
  map_res (recent_sales_line rt) items = Ok lines ->
  fst (get_recent_sales rt limit w)
  = Returns ("Recent " ++ str_of_Z (Z.of_nat (List.length items)) ++ " sale(s):" ++ nl
             ++ text_of lines).
Proof.
  intros Hup Hs Hdata Hne Hlines.
  success_path Hup Hs. data_path_nonempty Hdata Hne.
  cbn [py_len py_slice_to py_iter rbind].
  rewrite (for_append_lines _ _ lines _ Hlines). cbn [lift fst].
  rewrite !append_assoc. reflexivity.
Qed.

Lemma enumerate_length {A} (l : list A) :
  forall start, List.length (enumerate l start) = List.length l.
Proof. induction l as [| x l IH]; intros start; simpl; [| rewrite IH]; reflexivity. Qed.

Lemma top_products_text (period sort_by : string) (limit : Z) (w : world)
    (d : list (string * pyval)) (items : list pyval) (lines : list string) :
  (forall r, exchange rt r = Responded (PDict d)) ->
  truthy (get_or d "success" PNone) = true ->
  get_or d "data" (PList []) = PList items ->
  items <> [] ->
  map_res (top_line rt) (enumerate items 1) = Ok lines ->
  fst (get_top_products rt period sort_by limit w)
  = Returns ("Top " ++ str_of_Z (Z.of_nat (List.length items)) ++ " product(s) by "
             ++ sort_by ++ " for " ++ period ++ ":" ++ nl ++ text_of lines).
Proof.
  intros Hup Hs Hdata Hne Hlines.
  success_path Hup Hs. data_path_nonempty Hdata Hne.
  cbn [py_len py_slice_to py_iter rbind].
  rewrite (for_append_lines _ _ lines _ Hlines). cbn [lift fst].
  rewrite !append_assoc. reflexivity.
Qed.

(** C3, as the code has it. Zero items (a [data] field that is absent,
    empty or otherwise falsy): each of the seven listing tools answers
    with its own fixed sentence. More than five items, the first five of
    them JSON objects: [search_products], [list_products] and
    [get_low_stock_alerts] show exactly five entries and then the
    remainder, the total minus five. *)
Theorem listing_previews (w : world) (d : list (string * pyval)) :
  (forall r, exchange rt r = Responded (PDict d)) ->
  truthy (get_or d "success" PNone) = true ->
  (forall op sentence,
      no_results_sentence op = Some sentence ->
      truthy (get_or d "data" (PList [])) = false ->
      fst (invoke rt op w) = Returns sentence)
  /\
  (forall items,
      get_or d "data" (PList []) = PList items ->
      (5 < List.length items)%nat ->
      all_dicts (firstn 5 items) = true ->
      (forall search_term type low_stock,
          exists lines,
            map_res (search_line rt) (firstn 5 items) = Ok lines /\
            List.length lines = 5%nat /\
            fst (search_products rt search_term type low_stock w)
            = Returns ("Found " ++ str_of_Z (Z.of_nat (List.length items))
                       ++ " product(s):" ++ nl ++ text_of lines
                       ++ "... and " ++ str_of_Z (Z.of_nat (List.length items) - 5)
                       ++ " more."))
      /\
      (forall type low_stock,
          exists lines,
            map_res (list_line rt) (firstn 5 items) = Ok lines /\
            List.length lines = 5%nat /\
            fst (list_products rt type low_stock w)
            = Returns ("Found " ++ str_of_Z (Z.of_nat (List.length items))
                       ++ " product(s):" ++ nl ++ text_of lines
                       ++ "... and " ++ str_of_Z (Z.of_nat (List.length items) - 5)
                       ++ " more."))
      /\
      (forall threshold,
          exists lines,
            map_res (low_stock_line rt) (firstn 5 items) = Ok lines /\
            List.length lines = 5%nat /\
            fst (get_low_stock_alerts rt threshold w)
            = Returns (str_of_Z (Z.of_nat (List.length items))
                       ++ " low stock alert(s):" ++ nl ++ text_of lines
                       ++ "... and " ++ str_of_Z (Z.of_nat (List.length items) - 5)
                       ++ " more items need restocking."))).
Proof.
  intros Hup Hs. split.
  - intros op sentence Hsent Hz. apply no_results with (d := d); assumption.
  - intros items Hdata Hitems Hd. split; [| split]; intros.
    + apply search_products_preview with (d := d); assumption.
    + apply list_products_preview with (d := d); assumption.
    + apply low_stock_alerts_preview with (d := d); assumption.
Qed.

(** ** The product reference of a sale *)

Lemma unknown_product_name (sale : list (string * pyval)) :
  unknown_product sale = true ->
  sale_product_name (PDict sale) = Ok (PStr "Unknown").
Proof.
  rewrite sale_product_name_dict. unfold unknown_product, has_key, get_or.
  destruct (dict_get sale "productId") as [[| | | | | | pid] |]; try reflexivity.
  destruct (dict_get pid "name"); [discriminate | reflexivity].
Qed.

Lemma prefix_append (a b : string) : String.prefix a (a ++ b) = true.
Proof.
  induction a as [| c a IH]; simpl.
  - destruct b; reflexivity.
  - destruct (ascii_dec c c); [exact IH | congruence].
Qed.

Lemma sales_history_line_ok (sale : pyval) :
  sale_ok ["totalSaleValue"; "profit"] sale = true ->
  exists line, sales_history_line rt sale = Ok line /\ shows_unknown sale line.
Proof.
  destruct sale as [| | | | | | d]; try discriminate. simpl.
  rewrite andb_true_r. intros H. apply andb_true_iff in H. destruct H as [Ht Hp].
  destruct (sales_history_line_text d Ht Hp) as (name & Hname & Hline).
  eexists. split; [exact Hline |].
  intros d' [= <-] Hu. rewrite (unknown_product_name d Hu) in Hname.
  injection Hname as <-.
  match goal with
  | |- String.prefix _ ("- " ++ py_str rt (PStr "Unknown") ++ " (" ++ ?rest) = true =>
      change (String.prefix "- Unknown (" ("- Unknown (" ++ rest) = true)
  end.
  apply prefix_append.
Qed.

Lemma recent_sales_line_ok (sale : pyval) :
  sale_ok ["totalSaleValue"] sale = true ->
  exists line, recent_sales_line rt sale = Ok line /\ shows_unknown sale line.
Proof.
  destruct sale as [| | | | | | d]; try discriminate. simpl.
  rewrite andb_true_r. intros Ht.
  destruct (recent_sales_line_text d Ht) as (name & Hname & Hline).
  eexists. split; [exact Hline |].
  intros d' [= <-] Hu. rewrite (unknown_product_name d Hu) in Hname.
  injection Hname as <-.
  match goal with
  | |- String.prefix _ ("- " ++ py_str rt (PStr "Unknown") ++ " " ++ "(" ++ ?rest) = true =>
      change (String.prefix "- Unknown (" ("- Unknown (" ++ rest) = true)
  end.
  apply prefix_append.
Qed.

(** C9: a sale whose [productId] is absent, is not a dictionary, or is a
    dictionary without a name is shown as [Unknown]. Whatever the
    product references are, [get_sales_history] and [get_recent_sales]
    render every sale whose currency fields are absent or finite
    numbers, and the line of each such sale starts with [- Unknown (]. *)
Theorem unknown_product_rendered :
  (forall sale,
      unknown_product sale = true ->
      sale_product_name (PDict sale) = Ok (PStr "Unknown"))
  /\
  (forall w d items,
      (forall r, exchange rt r = Responded (PDict d)) ->
      truthy (get_or d "success" PNone) = true ->
      get_or d "data" (PList []) = PList items ->
      items <> [] ->
      (forall product_name start_date end_date limit,
          forallb (sale_ok ["totalSaleValue"; "profit"]) (firstn 5 items) = true ->
          exists lines,
            fst (get_sales_history rt product_name start_date end_date limit w)
            = Returns ("Found " ++ str_of_Z (Z.of_nat (List.length items)) ++ " sale(s):"
                       ++ nl ++ text_of lines)
            /\ Forall2 shows_unknown (firstn 5 items) lines)
      /\
      (forall limit,
          forallb (sale_ok ["totalSaleValue"]) items = true ->
          exists lines,
            fst (get_recent_sales rt limit w)
            = Returns ("Recent " ++ str_of_Z (Z.of_nat (List.length items)) ++ " sale(s):"
                       ++ nl ++ text_of lines)
            /\ Forall2 shows_unknown items lines)).
Proof.
  split; [exact unknown_product_name |].
  intros w d items Hup Hs Hdata Hne. split.
  - intros product_name start_date end_date limit Hok.
    destruct (map_res_Forall2 _ _ shows_unknown sales_history_line_ok _ Hok)
      as (lines & Hlines & Hshown).
    exists lines. split; [| exact Hshown].
    apply sales_history_text with (d := d); assumption.
  - intros limit Hok.
    destruct (map_res_Forall2 _ _ shows_unknown recent_sales_line_ok _ Hok)
      as (lines & Hlines & Hshown).
    exists lines. split; [| exact Hshown].
    apply recent_sales_text with (d := d); assumption.
Qed.

(** ** Outgoing requests *)

Lemma pure_ret {A} (a : A) : pure (ret a).
Proof. exists (Returns a). reflexivity. Qed.

Lemma pure_lift {A} (r : res A) : pure (lift r).
Proof. destruct r; eexists; reflexivity. Qed.

Lemma pure_raise {A} (msg : string) : pure (@raise_ToolError A msg).
Proof. eexists. reflexivity. Qed.

Lemma pure_bind {A B} (c : M A) (k : A -> M B) :
  pure c -> (forall a, pure (k a)) -> pure (bind c k).
Proof.
  intros [o Ho] Hk. unfold bind. destruct o as [a | msg | e].
  - destruct (Hk a) as [o' Ho']. exists o'. intros w. rewrite Ho. apply Ho'.
  - exists (ToolError msg). intros w. rewrite Ho. reflexivity.
  - exists (Uncaught e). intros w. rewrite Ho. reflexivity.
Qed.

Lemma pure_raise_failed {A} (what : string) (result : pyval) :
  pure (@raise_failed rt A what result).
Proof.
  unfold raise_failed. apply pure_bind; [apply pure_lift | intro; apply pure_raise].
Qed.

Ltac pure_tac :=
  repeat first
    [ apply pure_ret
    | apply pure_lift
    | apply pure_raise_failed
    | apply pure_bind; [| intro]
    | match goal with
      | |- pure (if ?b then _ else _) => destruct b
      end ].

Lemma pure_run {A} (c : M A) : pure c -> forall w, c w = (fst (c empty_world), w).
Proof. intros [o Ho] w. rewrite (Ho empty_world), (Ho w). reflexivity. Qed.

Lemma attempt_run (endpoint : string) (r : request) (w : world) :
  attempt rt endpoint r w
  = (Returns (reply rt r),
     mk_world (logged w ++ fault_log rt endpoint r)%list (append_item (sent w) r)).
Proof.
  rewrite attempt_spec. unfold reply, fault_log, failure.
  destruct (exchange rt r); [rewrite app_nil_r |]; reflexivity.
Qed.

Lemma call_attempt (endpoint method : string) (data : pyval) :
  supported method = true ->
  call_inventory_api rt endpoint method data
  = attempt rt endpoint (request_for rt endpoint method data).
Proof.
  intros H. apply supported_cases in H.
  destruct H as [-> | [-> | [-> | ->]]]; reflexivity.
Qed.

(** A tool after its arguments are shaped: one exchange, then a pure
    reading of the answer. *)
Lemma tool_run {A} (K : pyval -> M A) (endpoint method : string) (data : pyval)
    (w : world) :
  supported method = true ->
  (forall v, pure (K v)) ->
  bind (call_inventory_api rt endpoint method data) K w
  = (fst (K (reply rt (request_for rt endpoint method data)) empty_world),
     mk_world (logged w ++ fault_log rt endpoint (request_for rt endpoint method data))%list
       (append_item (sent w) (request_for rt endpoint method data))).
Proof.
  intros Hm HK. unfold bind. rewrite (call_attempt _ _ _ Hm), attempt_run.
  apply pure_run. apply HK.
Qed.

Lemma parse_cost_breakdown_run (cost_breakdown : option string)
    (data : list (string * pyval)) (w : world) :
  parse_cost_breakdown rt cost_breakdown data w
  = (Returns (with_breakdown rt cost_breakdown data),
     mk_world (logged w ++ breakdown_warnings rt cost_breakdown)%list (sent w)).
Proof.
  unfold parse_cost_breakdown, with_breakdown, breakdown_field, breakdown_warnings.
  destruct w as [lg st].
  destruct cost_breakdown as [cb |]; simpl; [| rewrite app_nil_r; reflexivity].
  destruct (str_nonempty cb); [| rewrite app_nil_r; reflexivity].
  destruct (json_loads rt cb); [rewrite app_nil_r |]; reflexivity.
Qed.

Lemma pure_add_product_reply (name : string) (quantity : Z) (price : spec_float)
    (result : pyval) : pure (add_product_reply rt name quantity price result).
Proof. unfold add_product_reply. pure_tac. Qed.

Lemma pure_update_product_reply (product_identifier : string) (name : option string)
    (quantity : option Z) (price cost : option spec_float) (result : pyval) :
  pure (update_product_reply rt product_identifier name quantity price cost result).
Proof. unfold update_product_reply. pure_tac. Qed.

Lemma add_product_run (name type : string) (quantity : Z) (price : spec_float)
    (sku : option string) (cost : option spec_float) (cost_breakdown : option string)
    (description caption : option string) (w : world) :
  add_product rt name type quantity price sku cost cost_breakdown description caption w
  = (fst (add_product_reply rt name quantity price
            (reply rt (add_product_request rt name type quantity price sku cost
                         cost_breakdown description caption)) empty_world),
     mk_world ((logged w ++ breakdown_warnings rt cost_breakdown)
               ++ fault_log rt "/api/products"
                    (add_product_request rt name type quantity price sku cost
                       cost_breakdown description caption))%list
       (append_item (sent w)
          (add_product_request rt name type quantity price sku cost cost_breakdown
             description caption))).
Proof.
  unfold add_product. unfold bind at 1. rewrite parse_cost_breakdown_run.
  rewrite tool_run; [reflexivity | reflexivity |].
  intro. apply pure_add_product_reply.
Qed.

Lemma update_product_run (product_identifier : string)
    (name sku type : option string) (quantity : option Z)
    (price cost : option spec_float) (cost_breakdown : option string)
    (description caption : option string) (w : world) :
  update_product rt product_identifier name sku type quantity price cost cost_breakdown
    description caption w
  = (fst (update_product_reply rt product_identifier name quantity price cost
            (reply rt (update_product_request rt product_identifier name sku type quantity
                         price cost cost_breakdown description caption)) empty_world),
     mk_world ((logged w ++ breakdown_warnings rt cost_breakdown)
               ++ fault_log rt ("/api/products/" ++ product_identifier)
                    (update_product_request rt product_identifier name sku type quantity
                       price cost cost_breakdown description caption))%list
       (append_item (sent w)
          (update_product_request rt product_identifier name sku type quantity
             price cost cost_breakdown description caption))).
Proof.
  unfold update_product. unfold bind at 1. rewrite parse_cost_breakdown_run.
  rewrite tool_run; [reflexivity | reflexivity |].
  intro. apply pure_update_product_reply.
Qed.

(** *** Dictionary updates *)

Lemma dict_get_set_same (d : list (string * pyval)) (k : string) (v : pyval) :
  dict_get (dict_set d k v) k = Some v.
Proof.
  induction d as [| [k0 v0] d IH]; simpl.
  - rewrite String.eqb_refl. reflexivity.
  - destruct (String.eqb k0 k) eqn:E; simpl; rewrite E; [reflexivity | exact IH].
Qed.

Lemma dict_get_set_other (d : list (string * pyval)) (k k' : string) (v : pyval) :
  String.eqb k' k = false ->
  dict_get (dict_set d k' v) k = dict_get d k.
Proof.
  intros Hk. induction d as [| [k0 v0] d IH]; simpl.
  - rewrite Hk. reflexivity.
  - destruct (String.eqb k0 k') eqn:E; simpl.
    + apply String.eqb_eq in E. subst k0. rewrite Hk. reflexivity.
    + destruct (String.eqb k0 k); [reflexivity | exact IH].
Qed.

Lemma get_if_set_same (b : bool) (d : list (string * pyval)) (k : string) (v : pyval) :
  dict_get (if b then dict_set d k v else d) k = if b then Some v else dict_get d k.
Proof. destruct b; [apply dict_get_set_same | reflexivity]. Qed.

Lemma get_if_set_other (b : bool) (d : list (string * pyval)) (k k' : string) (v : pyval) :
  String.eqb k' k = false ->
  dict_get (if b then dict_set d k' v else d) k = dict_get d k.
Proof. intros H. destruct b; [apply dict_get_set_other; exact H | reflexivity]. Qed.

Lemma get_opt_set_same {A} (o : option A) (f : A -> pyval) (d : list (string * pyval))
    (k : string) :
  dict_get (match o with Some x => dict_set d k (f x) | None => d end) k
  = match o with Some x => Some (f x) | None => dict_get d k end.
Proof. destruct o; [apply dict_get_set_same | reflexivity]. Qed.

Lemma get_opt_set_other {A} (o : option A) (f : A -> pyval) (d : list (string * pyval))
    (k k' : string) :
  String.eqb k' k = false ->
  dict_get (match o with Some x => dict_set d k' (f x) | None => d end) k = dict_get d k.
Proof. intros H. destruct o; [apply dict_get_set_other; exact H | reflexivity]. Qed.

Lemma get_with_breakdown_same (cost_breakdown : option string)
    (d : list (string * pyval)) :
  dict_get (with_breakdown rt cost_breakdown d) "costBreakdown"
  = match breakdown_field rt cost_breakdown with
    | Some v => Some v
    | None => dict_get d "costBreakdown"
    end.
Proof.
  unfold with_breakdown. destruct (breakdown_field rt cost_breakdown);
    [apply dict_get_set_same | reflexivity].
Qed.

Lemma get_with_breakdown_other (cost_breakdown : option string)
    (d : list (string * pyval)) (k : string) :
  String.eqb "costBreakdown" k = false ->
  dict_get (with_breakdown rt cost_breakdown d) k = dict_get d k.
Proof.
  intros H. unfold with_breakdown. destruct (breakdown_field rt cost_breakdown);
    [apply dict_get_set_other; exact H | reflexivity].
Qed.

(** Reads one key of a dictionary built by conditional assignments. *)
Ltac read_key :=
  repeat first
    [ rewrite get_with_breakdown_same
    | rewrite get_with_breakdown_other by reflexivity
    | rewrite get_if_set_same
    | rewrite get_opt_set_same
    | rewrite get_if_set_other by reflexivity
    | rewrite get_opt_set_other by reflexivity ];
  cbn [dict_get String.eqb Ascii.eqb Bool.eqb].

Lemma add_product_data_fields (name type : string) (quantity : Z) (price : spec_float)
    (sku : option string) (cost : option spec_float)
    (description caption : option string) :
  let body := add_product_data name type quantity price sku cost description caption in
  dict_get body "sku" = (if given sku then Some (ostr sku) else None) /\
  dict_get body "cost" = option_map PFloat cost /\
  dict_get body "description" = (if given description then Some (ostr description) else None) /\
  dict_get body "caption" = (if given caption then Some (ostr caption) else None) /\
  dict_get body "costBreakdown" = None.
Proof.
  unfold add_product_data. cbv zeta.
  repeat split; read_key; reflexivity.
Qed.

Lemma update_product_data_fields (product_identifier : string)
    (name sku type : option string) (quantity : option Z)
    (price cost : option spec_float) (description caption : option string) :
  let body := update_product_data product_identifier name sku type quantity price cost
                description caption in
  dict_get body "name" = (if given name then Some (ostr name) else None) /\
  dict_get body "sku" = (if given sku then Some (ostr sku) else None) /\
  dict_get body "type" = (if given type then Some (ostr type) else None) /\
  dict_get body "quantity" = option_map PInt quantity /\
  dict_get body "price" = option_map PFloat price /\
  dict_get body "cost" = option_map PFloat cost /\
  dict_get body "description" = (if given description then Some (ostr description) else None) /\
  dict_get body "caption" = (if given caption then Some (ostr caption) else None) /\
  dict_get body "costBreakdown" = None.
Proof.
  unfold update_product_data. cbv zeta.
  repeat split; read_key; reflexivity.
Qed.

Lemma nonempty_string (s : string) : s <> "" -> str_nonempty s = true.
Proof. destruct s; [congruence | reflexivity]. Qed.

Ltac run_tool :=
  cbv zeta; rewrite tool_run; [| reflexivity | intro; pure_tac].



Lemma search_products_sent (search_term type : option string) (low_stock : bool)
    (w : world) :
  sent (snd (search_products rt search_term type low_stock w))
  = append_item (sent w)
      (mk_request "GET"
         (API_BASE_URL rt ++ products_endpoint rt (search_params search_term type low_stock))
         None).
Proof. unfold search_products. run_tool. reflexivity. Qed.

Lemma list_products_sent (type : option string) (low_stock : bool) (w : world) :
  sent (snd (list_products rt type low_stock w))
  = append_item (sent w)
      (mk_request "GET"
         (API_BASE_URL rt ++ products_endpoint rt (list_params type low_stock)) None).
Proof. unfold list_products. run_tool. reflexivity. Qed.

Lemma get_sales_history_sent (product_name start_date end_date : option string)
    (limit : Z) (w : world) :
  sent (snd (get_sales_history rt product_name start_date end_date limit w))
  = append_item (sent w)
      (mk_request "GET"
         (API_BASE_URL rt ++ "/api/sales?"
          ++ join "&" (query_pairs (py_str rt)
                         (sales_params product_name start_date end_date limit)))
         None).
Proof. unfold get_sales_history. run_tool. reflexivity. Qed.


(** ** The cost breakdown *)

Lemma breakdown_field_invalid (cb detail : string) :
  json_loads rt cb = ParseError detail ->
  breakdown_field rt (Some cb) = None /\
  with_breakdown rt (Some cb) = with_breakdown rt None /\
  breakdown_warnings rt (Some cb)
  = (if str_nonempty cb then [breakdown_warning cb detail] else []).
Proof.
  intros H. unfold with_breakdown, breakdown_field, breakdown_warnings. rewrite H.
  destruct (str_nonempty cb); repeat split; reflexivity.
Qed.

Lemma breakdown_field_valid (cb : string) (v : pyval) :
  cb <> "" ->
  json_loads rt cb = Parsed v ->
  breakdown_field rt (Some cb) = Some v.
Proof.
  intros Hne H. unfold breakdown_field. rewrite (nonempty_string cb Hne), H. reflexivity.
Qed.

Lemma update_product_success (product_identifier : string)
    (name sku type : option string) (quantity : option Z)
    (price cost : option spec_float) (cost_breakdown : option string)
    (description caption : option string) (w : world) (d : list (string * pyval)) :
  (forall r, exchange rt r = Responded (PDict d)) ->
  truthy (get_or d "success" PNone) = true ->
  fst (update_product rt product_identifier name sku type quantity price cost
         cost_breakdown description caption w)
  = Returns ("Successfully updated "
             ++ match update_product_fields rt name quantity price cost with
                | [] => "product details"
                | _ :: _ => join ", " (update_product_fields rt name quantity price cost)
                end
             ++ " for '" ++ product_identifier ++ "'.").
Proof.
  intros Hup Hs.
  rewrite (update_product_run product_identifier name sku type quantity price cost
             cost_breakdown description caption w).
  unfold reply. rewrite Hup. cbn [fst].
  unfold update_product_reply. rewrite bind_lift_get, Hs, bind_lift_get. reflexivity.
Qed.

Lemma add_product_success (name type : string) (quantity : Z) (price : spec_float)
    (sku : option string) (cost : option spec_float) (cost_breakdown : option string)
    (description caption : option string) (w : world)
    (d product : list (string * pyval)) :
  (forall r, exchange rt r = Responded (PDict d)) ->
  truthy (get_or d "success" PNone) = true ->
  get_or d "data" (PDict []) = PDict product ->
  truthy (get_or product "costBreakdown" PNone) = false ->
  fst (add_product rt name type quantity price sku cost cost_breakdown description caption w)
  = Returns ("Successfully added " ++ str_of_Z quantity ++ " units of '" ++ name
             ++ "' (SKU: " ++ py_str rt (get_or product "sku" PNone)
             ++ ") to inventory at $" ++ float_repr rt price ++ " per unit.").
Proof.
  intros Hup Hs Hdata Hcb.
  rewrite (add_product_run name type quantity price sku cost cost_breakdown description
             caption w).
  unfold reply. rewrite Hup. cbn [fst].
  unfold add_product_reply. rewrite bind_lift_get, Hs, bind_lift_get, Hdata.
  rewrite bind_lift_get, Hcb. cbn -[String.append str_of_Z].
  rewrite append_empty_r. reflexivity.
Qed.

(** C6, as the code has it: a cost breakdown that does not parse never
    aborts [add_product] or [update_product]. The call ends as the same
    call without the argument ends and sends the same request, whose
    body has no [costBreakdown]; when the text is not empty one warning
    is logged before the request, when it is empty nothing is logged.
    When the service then reports success the tool returns its success
    sentence. *)
Theorem malformed_breakdown_fail_soft (cb detail : string) :
  json_loads rt cb = ParseError detail ->
  (forall name type quantity price sku cost description caption w,
      fst (add_product rt name type quantity price sku cost (Some cb) description caption w)
      = fst (add_product rt name type quantity price sku cost None description caption w)
      /\
      (exists body,
          sent (snd (add_product rt name type quantity price sku cost (Some cb)
                       description caption w))
          = append_item (sent w)
              (mk_request "POST" (API_BASE_URL rt ++ "/api/products") (Some (PDict body)))
          /\ sent (snd (add_product rt name type quantity price sku cost None
                          description caption w))
             = append_item (sent w)
                 (mk_request "POST" (API_BASE_URL rt ++ "/api/products")
                    (Some (PDict body)))
          /\ dict_get body "costBreakdown" = None)
      /\
      (exists tail,
          logged (snd (add_product rt name type quantity price sku cost None
                         description caption w))
          = (logged w ++ tail)%list
          /\
          logged (snd (add_product rt name type quantity price sku cost (Some cb)
                         description caption w))
          = ((logged w
              ++ (if str_nonempty cb then [breakdown_warning cb detail] else []))
             ++ tail)%list))
  /\
  (forall product_identifier name sku type quantity price cost description caption w,
      fst (update_product rt product_identifier name sku type quantity price cost (Some cb)
             description caption w)
      = fst (update_product rt product_identifier name sku type quantity price cost None
               description caption w)
      /\
      (exists body,
          sent (snd (update_product rt product_identifier name sku type quantity price cost
                       (Some cb) description caption w))
          = append_item (sent w)
              (mk_request "PUT" (API_BASE_URL rt ++ "/api/products/" ++ product_identifier)
                 (Some (PDict body)))
          /\ sent (snd (update_product rt product_identifier name sku type quantity price
                          cost None description caption w))
             = append_item (sent w)
                 (mk_request "PUT"
                    (API_BASE_URL rt ++ "/api/products/" ++ product_identifier)
                    (Some (PDict body)))
          /\ dict_get body "costBreakdown" = None)
      /\
      (exists tail,
          logged (snd (update_product rt product_identifier name sku type quantity price
                         cost None description caption w))
          = (logged w ++ tail)%list
          /\
          logged (snd (update_product rt product_identifier name sku type quantity price
                         cost (Some cb) description caption w))
          = ((logged w
              ++ (if str_nonempty cb then [breakdown_warning cb detail] else []))
             ++ tail)%list))
  /\
  (forall w d,
      (forall r, exchange rt r = Responded (PDict d)) ->
      truthy (get_or d "success" PNone) = true ->
      (forall product_identifier name sku type quantity price cost description caption,
          fst (update_product rt product_identifier name sku type quantity price cost
                 (Some cb) description caption w)
          = Returns ("Successfully updated "
                     ++ match update_product_fields rt name quantity price cost with
                        | [] => "product details"
                        | _ :: _ =>
                            join ", " (update_product_fields rt name quantity price cost)
                        end
                     ++ " for '" ++ product_identifier ++ "'."))
      /\
      (forall product name type quantity price sku cost description caption,
          get_or d "data" (PDict []) = PDict product ->
          truthy (get_or product "costBreakdown" PNone) = false ->
          fst (add_product rt name type quantity price sku cost (Some cb)
                 description caption w)
          = Returns ("Successfully added " ++ str_of_Z quantity ++ " units of '" ++ name
                     ++ "' (SKU: " ++ py_str rt (get_or product "sku" PNone)
                     ++ ") to inventory at $" ++ float_repr rt price ++ " per unit."))).
Proof.
  intros Hbad.
  destruct (breakdown_field_invalid cb detail Hbad) as (Hfield & Hwith & Hwarn).
  split; [| split].
  - intros.
    rewrite (add_product_run name type quantity price sku cost (Some cb) description
               caption w).
    rewrite (add_product_run name type quantity price sku cost None description caption w).
    unfold add_product_request. rewrite Hwith, Hwarn. cbn [fst snd sent logged].
    split; [reflexivity |]. split.
    + eexists. split; [reflexivity |]. split; [reflexivity |].
      rewrite get_with_breakdown_same. cbn [breakdown_field].
      apply (add_product_data_fields name type quantity price sku cost description caption).
    + eexists. split; [| reflexivity].
      cbn [breakdown_warnings]. rewrite app_nil_r. reflexivity.
  - intros.
    rewrite (update_product_run product_identifier name sku type quantity price cost
               (Some cb) description caption w).
    rewrite (update_product_run product_identifier name sku type quantity price cost
               None description caption w).
    unfold update_product_request. rewrite Hwith, Hwarn. cbn [fst snd sent logged].
    split; [reflexivity |]. split.
    + eexists. split; [reflexivity |]. split; [reflexivity |].
      rewrite get_with_breakdown_same. cbn [breakdown_field].
      apply (update_product_data_fields product_identifier name sku type quantity price
               cost description caption).
    + eexists. split; [| reflexivity].
      cbn [breakdown_warnings]. rewrite app_nil_r. reflexivity.
  - intros w d Hup Hs. split; intros.
    + apply update_product_success with (d := d); assumption.
    + apply add_product_success with (d := d); assumption.
Qed.

(** C7: a cost breakdown that parses to a list is forwarded as parsed,
    every entry unchanged and in the same order, as the [costBreakdown]
    field of the body [add_product] posts and [update_product] puts. *)
Theorem valid_breakdown_forwarded (cb : string) (entries : list pyval) :
  cb <> "" ->
  json_loads rt cb = Parsed (PList entries) ->
  (forall name type quantity price sku cost description caption w,
      exists body,
        sent (snd (add_product rt name type quantity price sku cost (Some cb)
                     description caption w))
        = append_item (sent w)
            (mk_request "POST" (API_BASE_URL rt ++ "/api/products") (Some (PDict body)))
        /\ dict_get body "costBreakdown" = Some (PList entries))
  /\
  (forall product_identifier name sku type quantity price cost description caption w,
      exists body,
        sent (snd (update_product rt product_identifier name sku type quantity price cost
                     (Some cb) description caption w))
        = append_item (sent w)
            (mk_request "PUT" (API_BASE_URL rt ++ "/api/products/" ++ product_identifier)
               (Some (PDict body)))
        /\ dict_get body "costBreakdown" = Some (PList entries)).
Proof.
  intros Hne Hok.
  pose proof (breakdown_field_valid cb (PList entries) Hne Hok) as Hfield.
  split; intros; eexists.
  - rewrite (add_product_run name type quantity price sku cost (Some cb) description
               caption w).
    split; [reflexivity |]. rewrite get_with_breakdown_same, Hfield. reflexivity.
  - rewrite (update_product_run product_identifier name sku type quantity price cost
               (Some cb) description caption w).
    split; [reflexivity |]. rewrite get_with_breakdown_same, Hfield. reflexivity.
Qed.

(** ** One exchange per call *)

Lemma products_endpoint_prefix (params : list (string * pyval)) :
  String.prefix "/api/" (products_endpoint rt params) = true.
Proof.
  unfold products_endpoint. cbv zeta.
  destruct (str_nonempty (join "&" (query_pairs (py_str rt) params))); reflexivity.
Qed.

Lemma invoke_run (op : operation) :
  exists endpoint r,
    (forall w,
        invoke rt op w
        = (fst (invoke rt op empty_world),
           mk_world ((logged w ++ op_warnings rt op) ++ fault_log rt endpoint r)%list
             (append_item (sent w) r)))
    /\ req_method r = method_of op
    /\ req_url r = API_BASE_URL rt ++ endpoint
    /\ String.prefix "/api/" endpoint = true
    /\ (req_json r = None <-> carries_body (method_of op) = false).
Proof.
  destruct op; unfold invoke.
  1: { do 2 eexists. split.
       - intros w.
         rewrite (add_product_run name type quantity price sku cost cost_breakdown
                    description caption w).
         rewrite (add_product_run name type quantity price sku cost cost_breakdown
                    description caption empty_world).
         reflexivity.
       - repeat split; discriminate. }
  1: { do 2 eexists. split.
       - intros w.
         rewrite (update_product_run product_identifier name sku type quantity price cost
                    cost_breakdown description caption w).
         rewrite (update_product_run product_identifier name sku type quantity price cost
                    cost_breakdown description caption empty_world).
         reflexivity.
       - repeat split; discriminate. }
  all: autounfold with tools; cbv zeta; do 2 eexists;
    (split;
     [ intros w; rewrite !tool_run by (try reflexivity; intro; pure_tac);
       cbn [fst op_warnings]; rewrite app_nil_r; reflexivity
     | repeat split; try discriminate; try reflexivity;
       apply products_endpoint_prefix ]).
Qed.

(** X1: every tool issues exactly one request, whatever the answer. The
    request has the tool's verb and an address under [/api/] of the base
    URL; it carries a body exactly for POST and PUT. The log grows by
    the cost-breakdown warning, if any, and then by the record of a
    faulted exchange, if any, and by nothing else. *)
Theorem one_exchange_per_call (op : operation) (w : world) :
  exists endpoint r,
    sent (snd (invoke rt op w)) = append_item (sent w) r
    /\ logged (snd (invoke rt op w))
       = ((logged w ++ op_warnings rt op) ++ fault_log rt endpoint r)%list
    /\ req_method r = method_of op
    /\ req_url r = API_BASE_URL rt ++ endpoint
    /\ String.prefix "/api/" endpoint = true
    /\ (req_json r = None <-> carries_body (method_of op) = false).
Proof.
  destruct (invoke_run op) as (endpoint & r & Hw & Hm & Hu & Hp & Hb).
  exists endpoint, r. rewrite (Hw w). repeat split; try assumption; apply Hb.
Qed.

Lemma view_analytics_sent (period : string) (w : world) :
  sent (snd (view_analytics rt period w))
  = append_item (sent w)
      (mk_request "GET" (API_BASE_URL rt ++ "/api/analytics/profit?period=" ++ period) None).
Proof. unfold view_analytics. run_tool. reflexivity. Qed.

Lemma get_profit_stats_sent (period : string) (w : world) :
  sent (snd (get_profit_stats rt period w))
  = append_item (sent w)
      (mk_request "GET" (API_BASE_URL rt ++ "/api/analytics/profit?period=" ++ period) None).
Proof. unfold get_profit_stats. run_tool. reflexivity. Qed.

Lemma get_recent_sales_sent (limit : Z) (w : world) :
  sent (snd (get_recent_sales rt limit w))
  = append_item (sent w)
      (mk_request "GET" (API_BASE_URL rt ++ "/api/sales?limit=" ++ str_of_Z limit) None).
Proof. unfold get_recent_sales. run_tool. reflexivity. Qed.

(** X3: tools that share an endpoint send the same request.
    [list_products] with the type [all] behaves as without a type;
    [search_products] without a term sends what [list_products] sends
    for any other type; [view_analytics] and [get_profit_stats] send the
    same request for the same period, and [get_recent_sales] sends what
    [get_sales_history] sends without filters. *)
Theorem shared_endpoints (w : world) :
  (forall low_stock,
      list_products rt (Some "all") low_stock w = list_products rt None low_stock w)
  /\
  (forall type low_stock,
      type <> Some "all" ->
      sent (snd (search_products rt None type low_stock w))
      = sent (snd (list_products rt type low_stock w)))
  /\
  (forall period,
      sent (snd (view_analytics rt period w)) = sent (snd (get_profit_stats rt period w)))
  /\
  (forall limit,
      sent (snd (get_recent_sales rt limit w))
      = sent (snd (get_sales_history rt None None None limit w))).
Proof.
  repeat split.
  - intros type low_stock Hall.
    rewrite (search_products_sent None type low_stock w),
      (list_products_sent type low_stock w).
    unfold search_params, list_params. cbv zeta.
    destruct type as [t |]; [| reflexivity].
    destruct (String.eqb_spec t "all") as [-> | Hne]; [congruence |].
    rewrite andb_true_r. reflexivity.
  - intros period.
    rewrite (view_analytics_sent period w), (get_profit_stats_sent period w). reflexivity.
  - intros limit.
    rewrite (get_recent_sales_sent limit w), (get_sales_history_sent None None None limit w).
    reflexivity.
Qed.

(** X4: the query strings are assembled from the supplied texts as they
    are, in a fixed order and without any encoding: [limit] first, then
    [product], [startDate], [endDate] for the sales history; [search],
    [type], [lowStock] for the product search, joined by [&] after a
    [?] that is present only when some filter is. *)
Theorem query_strings_verbatim (w : world) :
  (forall product_name start_date end_date limit,
      sent (snd (get_sales_history rt product_name start_date end_date limit w))
      = append_item (sent w)
          (mk_request "GET"
             (API_BASE_URL rt ++ "/api/sales?limit=" ++ str_of_Z limit
              ++ text_if_given "&product=" product_name
              ++ text_if_given "&startDate=" start_date
              ++ text_if_given "&endDate=" end_date) None))
  /\
  (forall search_term type low_stock,
      sent (snd (search_products rt search_term type low_stock w))
      = append_item (sent w)
          (mk_request "GET"
             (API_BASE_URL rt ++ "/api/products"
              ++ match filter str_nonempty
                         [text_if_given "search=" search_term;
                          text_if_given "type=" type;
                          if low_stock then "lowStock=true" else ""] with
                 | [] => ""
                 | parts => "?" ++ join "&" parts
                 end) None)).
Proof.
  split.
  - intros product_name start_date end_date limit.
    rewrite (get_sales_history_sent product_name start_date end_date limit w).
    do 3 f_equal.
    destruct product_name as [[| c1 p] |], start_date as [[| c2 s] |],
      end_date as [[| c3 e] |];
      cbn -[String.append str_of_Z]; rewrite ?append_assoc, ?append_empty_r; reflexivity.
  - intros search_term type low_stock.
    rewrite (search_products_sent search_term type low_stock w).
    do 3 f_equal.
    destruct search_term as [[| c1 s] |], type as [[| c2 t] |], low_stock; reflexivity.
Qed.

(** ** Answers with missing or malformed data *)

Lemma get_or_absent (d : list (string * pyval)) (k : string) (default : pyval) :
  dict_get d k = None -> get_or d k default = default.
Proof. intros H. unfold get_or. rewrite H. reflexivity. Qed.

(** X5: a success envelope without a [data] field never makes a tool
    fail: every listing answers with its "no results" sentence and every
    other tool returns a text built from its defaults. *)
Theorem success_without_data (op : operation) (w : world) (d : list (string * pyval)) :
  (forall r, exchange rt r = Responded (PDict d)) ->
  truthy (get_or d "success" PNone) = true ->
  dict_get d "data" = None ->
  is_returns (fst (invoke rt op w)) = true
  /\ (forall sentence,
         no_results_sentence op = Some sentence ->
         fst (invoke rt op w) = Returns sentence).
Proof.
  intros Hup Hs Hnone. split.
  - destruct op; open_tool; call_responded Hup; rewrite bind_lift_get, Hs;
      try (rewrite bind_lift_get, (get_or_absent d "data" _ Hnone)); reflexivity.
  - intros sentence Hsent. apply no_results with (d := d); try assumption.
    rewrite (get_or_absent d "data" _ Hnone). reflexivity.
Qed.

(** X6: [delete_product], [update_product] and [update_inventory] never
    read the [data] of a successful answer: whatever it holds, they
    return their confirmation. *)
Theorem confirmations_ignore_data (w : world) (d : list (string * pyval)) :
  (forall r, exchange rt r = Responded (PDict d)) ->
  truthy (get_or d "success" PNone) = true ->
  (forall product_identifier,
      fst (delete_product rt product_identifier w)
      = Returns ("Successfully deleted product '" ++ product_identifier ++ "'."))
  /\
  (forall product_name quantity_change new_quantity,
      fst (update_inventory rt product_name quantity_change new_quantity w)
      = Returns ("Successfully updated inventory for '" ++ product_name ++ "'. "
                 ++ py_str rt (get_or d "message" (PStr ""))))
  /\
  (forall product_identifier name sku type quantity price cost cost_breakdown
          description caption,
      is_returns (fst (update_product rt product_identifier name sku type quantity price
                         cost cost_breakdown description caption w)) = true).
Proof.
  intros Hup Hs. repeat split; intros.
  - unfold delete_product. call_responded Hup. rewrite bind_lift_get, Hs. reflexivity.
  - unfold update_inventory. cbv zeta. call_responded Hup.
    rewrite bind_lift_get, Hs, bind_lift_get. reflexivity.
  - rewrite (update_product_success product_identifier name sku type quantity price cost
               cost_breakdown description caption w d Hup Hs). reflexivity.
Qed.

(** X7: the confirmation of [update_product] names only the name, the
    price, the cost and the quantity, in this order; a new SKU, type,
    description, caption or cost breakdown never shows in it, and an
    update of those alone is confirmed as "product details". *)
Theorem update_confirmation_fields (w : world) (d : list (string * pyval))
    (product_identifier : string) (name sku type : option string) (quantity : option Z)
    (price cost : option spec_float) (cost_breakdown description caption : option string) :
  (forall r, exchange rt r = Responded (PDict d)) ->
  truthy (get_or d "success" PNone) = true ->
  fst (update_product rt product_identifier name sku type quantity price cost
         cost_breakdown description caption w)
  = fst (update_product rt product_identifier name None None quantity price cost
           None None None w)
  /\
  (given name = false -> quantity = None -> price = None -> cost = None ->
   fst (update_product rt product_identifier name sku type quantity price cost
          cost_breakdown description caption w)
   = Returns ("Successfully updated product details for '" ++ product_identifier ++ "'."))
  /\
  (forall n q p c,
      given (Some n) = true ->
      name = Some n -> quantity = Some q -> price = Some p -> cost = Some c ->
      fst (update_product rt product_identifier name sku type quantity price cost
             cost_breakdown description caption w)
      = Returns ("Successfully updated name, price ($" ++ float_repr rt p ++ "), cost ($"
                 ++ float_repr rt c ++ "), quantity (" ++ str_of_Z q ++ ") for '"
                 ++ product_identifier ++ "'.")).
Proof.
  intros Hup Hs.
  rewrite (update_product_success product_identifier name sku type quantity price cost
             cost_breakdown description caption w d Hup Hs).
  rewrite (update_product_success product_identifier name None None quantity price cost
             None None None w d Hup Hs).
  split; [reflexivity |]. split.
  - intros Hn -> -> ->. unfold update_product_fields. rewrite Hn. reflexivity.
  - intros n q p c Hn -> -> -> ->. unfold update_product_fields. rewrite Hn.
    cbn -[String.append str_of_Z]. rewrite !append_assoc. reflexivity.
Qed.

Ltac format_cases :=
  repeat match goal with
         | |- context [format_fixed ?n ?v] => destruct (format_fixed n v); cbn [rbind]
         end;
  (split;
   [ let e' := fresh "e" in
     let H := fresh "H" in
     intros e' H; first [discriminate H | injection H as <-; reflexivity]
   | let H := fresh "H" in
     intros H; first [discriminate H | reflexivity] ]).

(** X8: the tools that format figures with a fixed-point code end in the
    exception of the first field, in rendering order, that the format
    rejects, and return when it rejects none. The format rejects [null]
    and containers with [TypeError] and a text with [ValueError]; it
    accepts the booleans and shows them as [1.00] and [0.00]. *)
Theorem format_errors_escape (w : world) (d data : list (string * pyval)) :
  (forall r, exchange rt r = Responded (PDict d)) ->
  truthy (get_or d "success" PNone) = true ->
  get_or d "data" (PDict []) = PDict data ->
  (forall product_name quantity sell_price,
      let fields := [(2%nat, get_or data "totalSaleValue" (PInt 0));
                     (2%nat, get_or data "profit" (PInt 0))] in
      (forall e, first_format_error fields = Some e ->
                 fst (record_sale rt product_name quantity sell_price w) = Uncaught e)
      /\
      (first_format_error fields = None ->
       is_returns (fst (record_sale rt product_name quantity sell_price w)) = true))
  /\
  (let fields := [(2%nat, get_or data "totalValue" (PInt 0))] in
   (forall e, first_format_error fields = Some e ->
              fst (get_inventory_summary rt w) = Uncaught e)
   /\
   (first_format_error fields = None ->
    is_returns (fst (get_inventory_summary rt w)) = true))
  /\
  (forall period,
      let fields := [(2%nat, get_or data "totalRevenue" (PInt 0));
                     (2%nat, get_or data "totalProfit" (PInt 0));
                     (1%nat, get_or data "profitMargin" (PInt 0))] in
      (forall e, first_format_error fields = Some e ->
                 fst (view_analytics rt period w) = Uncaught e)
      /\
      (first_format_error fields = None ->
       is_returns (fst (view_analytics rt period w)) = true))
  /\
  (forall period,
      let fields := [(2%nat, get_or data "totalProfit" (PInt 0));
                     (2%nat, get_or data "totalRevenue" (PInt 0));
                     (2%nat, get_or data "totalCost" (PInt 0));
                     (2%nat, get_or data "averageProfit" (PInt 0))] in
      (forall e, first_format_error fields = Some e ->
                 fst (get_profit_stats rt period w) = Uncaught e)
      /\
      (first_format_error fields = None ->
       is_returns (fst (get_profit_stats rt period w)) = true))
  /\
  (forall digits,
      format_fixed digits PNone = Err TypeError
      /\ (forall s, format_fixed digits (PStr s) = Err ValueError)
      /\ (forall l, format_fixed digits (PList l) = Err TypeError)
      /\ (forall o, format_fixed digits (PDict o) = Err TypeError))
  /\
  (forall b, format_fixed 2 (PBool b) = Ok (if b then "1.00" else "0.00")).
Proof.
  intros Hup Hs Hdata.
  split; [| split; [| split; [| split; [| split]]]].
  - intros product_name quantity sell_price fields. subst fields.
    success_path Hup Hs. rewrite bind_lift_get, Hdata.
    cbn [py_get rbind first_format_error]. format_cases.
  - intros fields. subst fields.
    success_path Hup Hs. rewrite bind_lift_get, Hdata.
    cbn [py_get rbind first_format_error]. format_cases.
  - intros period fields. subst fields.
    success_path Hup Hs. rewrite bind_lift_get, Hdata.
    cbn [py_get rbind first_format_error]. format_cases.
  - intros period fields. subst fields.
    success_path Hup Hs. rewrite bind_lift_get, Hdata.
    cbn [py_get rbind first_format_error]. format_cases.
  - intros digits. repeat split.
  - intros [|]; reflexivity.
Qed.

(** ** Short and malformed listings *)

Lemma firstn_short {A} (l : list A) : (List.length l <= 5)%nat -> firstn 5 l = l.
Proof. intros H. apply firstn_all2. exact H. Qed.

Lemma at_most_five (items : list pyval) :
  (List.length items <= 5)%nat -> (5 <? Z.of_nat (List.length items)) = false.
Proof. intros H. apply Z.ltb_ge. lia. Qed.

Lemma preview_short (header : Z -> string) (line : pyval -> res string)
    (more : Z -> string) (items : list pyval) (lines : list string) :
  (List.length items <= 5)%nat ->
  map_res line items = Ok lines ->
  preview_with_remainder header line more (PList items)
  = Ok (header (Z.of_nat (List.length items)) ++ text_of lines).
Proof.
  intros Hlen Hlines.
  rewrite (preview_with_remainder_spec header line more items lines).
  - cbv zeta. rewrite (at_most_five items Hlen). reflexivity.
  - rewrite (firstn_short items Hlen). exact Hlines.
Qed.

(** X9: up to five items the three truncating listings show one entry
    per item and no remainder; exactly five items are still shown in
    full. *)
Theorem short_listings_complete (w : world) (d : list (string * pyval))
    (items : list pyval) :
  (forall r, exchange rt r = Responded (PDict d)) ->
  truthy (get_or d "success" PNone) = true ->
  get_or d "data" (PList []) = PList items ->
  items <> [] ->
  (List.length items <= 5)%nat ->
  all_dicts items = true ->
  (forall search_term type low_stock,
      exists lines,
        map_res (search_line rt) items = Ok lines /\
        List.length lines = List.length items /\
        fst (search_products rt search_term type low_stock w)
        = Returns ("Found " ++ str_of_Z (Z.of_nat (List.length items)) ++ " product(s):"
                   ++ nl ++ text_of lines))
  /\
  (forall type low_stock,
      exists lines,
        map_res (list_line rt) items = Ok lines /\
        List.length lines = List.length items /\
        fst (list_products rt type low_stock w)
        = Returns ("Found " ++ str_of_Z (Z.of_nat (List.length items)) ++ " product(s):"
                   ++ nl ++ text_of lines))
  /\
  (forall threshold,
      exists lines,
        map_res (low_stock_line rt) items = Ok lines /\
        List.length lines = List.length items /\
        fst (get_low_stock_alerts rt threshold w)
        = Returns (str_of_Z (Z.of_nat (List.length items)) ++ " low stock alert(s):"
                   ++ nl ++ text_of lines)).
Proof.
  intros Hup Hs Hdata Hne Hlen Hd. repeat split; intros.
  - destruct (product_lines _ _ search_line_dict Hd) as (lines & Hlines & Hl).
    exists lines. repeat split; try assumption.
    success_path Hup Hs. data_path_nonempty Hdata Hne.
    rewrite (preview_short _ _ _ _ _ Hlen Hlines). cbn [lift fst].
    rewrite !append_assoc. reflexivity.
  - destruct (product_lines _ _ list_line_dict Hd) as (lines & Hlines & Hl).
    exists lines. repeat split; try assumption.
    success_path Hup Hs. data_path_nonempty Hdata Hne.
    rewrite (preview_short _ _ _ _ _ Hlen Hlines). cbn [lift fst].
    rewrite !append_assoc. reflexivity.
  - destruct (product_lines _ _ low_stock_line_dict Hd) as (lines & Hlines & Hl).
    exists lines. repeat split; try assumption.
    success_path Hup Hs. data_path_nonempty Hdata Hne.
    rewrite (preview_short _ _ _ _ _ Hlen Hlines). cbn [lift fst].
    rewrite !append_assoc. reflexivity.
Qed.

Lemma for_append_not_dict (line : pyval -> res string) (l : list pyval) :
  (forall p, is_dict p = true -> exists s, line p = Ok s) ->
  (forall p, is_dict p = false -> line p = Err AttributeError) ->
  forallb is_dict l = false ->
  forall response, for_append line l response = Err AttributeError.
Proof.
  intros Hok Hbad. induction l as [| p l IH]; simpl; intros Hl response.
  - discriminate.
  - destruct (is_dict p) eqn:Hp.
    + destruct (Hok p Hp) as (s & ->). simpl. apply IH. exact Hl.
    + rewrite (Hbad p Hp). reflexivity.
Qed.

Lemma search_line_not_dict (p : pyval) :
  is_dict p = false -> search_line rt p = Err AttributeError.
Proof. destruct p; try discriminate; reflexivity. Qed.

Lemma list_line_not_dict (p : pyval) :
  is_dict p = false -> list_line rt p = Err AttributeError.
Proof. destruct p; try discriminate; reflexivity. Qed.

Lemma low_stock_line_not_dict (p : pyval) :
  is_dict p = false -> low_stock_line rt p = Err AttributeError.
Proof. destruct p; try discriminate; reflexivity. Qed.

Lemma preview_not_dict (header : Z -> string) (line : pyval -> res string)
    (more : Z -> string) (items : list pyval) :
  (forall p, is_dict p = true -> exists s, line p = Ok s) ->
  (forall p, is_dict p = false -> line p = Err AttributeError) ->
  all_dicts (firstn 5 items) = false ->
  preview_with_remainder header line more (PList items) = Err AttributeError.
Proof.
  intros Hok Hbad Hd. unfold preview_with_remainder.
  cbn [py_len py_slice_to py_iter rbind].
  rewrite (for_append_not_dict line _ Hok Hbad Hd). reflexivity.
Qed.

Lemma not_all_dicts_nonempty (items : list pyval) :
  all_dicts (firstn 5 items) = false -> items <> [].
Proof. destruct items; [discriminate | discriminate]. Qed.

(** X10: an item among the first five that is not a JSON object makes the
    three truncating listings end in [AttributeError], although the
    service reported success; no [ToolError] is raised and nothing is
    rendered. *)
Theorem listing_item_not_object (w : world) (d : list (string * pyval))
    (items : list pyval) :
  (forall r, exchange rt r = Responded (PDict d)) ->
  truthy (get_or d "success" PNone) = true ->
  get_or d "data" (PList []) = PList items ->
  all_dicts (firstn 5 items) = false ->
  (forall search_term type low_stock,
      fst (search_products rt search_term type low_stock w) = Uncaught AttributeError)
  /\
  (forall type low_stock,
      fst (list_products rt type low_stock w) = Uncaught AttributeError)
  /\
  (forall threshold,
      fst (get_low_stock_alerts rt threshold w) = Uncaught AttributeError).
Proof.
  intros Hup Hs Hdata Hd.
  pose proof (not_all_dicts_nonempty items Hd) as Hne.
  repeat split; intros; success_path Hup Hs; data_path_nonempty Hdata Hne.
  - rewrite (preview_not_dict _ _ _ _ search_line_dict search_line_not_dict Hd).
    reflexivity.
  - rewrite (preview_not_dict _ _ _ _ list_line_dict list_line_not_dict Hd).
    reflexivity.
  - rewrite (preview_not_dict _ _ _ _ low_stock_line_dict low_stock_line_not_dict Hd).
    reflexivity.
Qed.

(** ** The echoed cost breakdown of [add_product] *)

Lemma breakdown_item_both (item : pyval) :
  has_both_keys item = true -> exists text, breakdown_item rt item = Ok text.
Proof.
  destruct item as [| | | | | | d]; try discriminate. unfold has_both_keys, has_key.
  unfold breakdown_item. cbn [py_getitem rbind].
  destruct (dict_get d "category"); [| discriminate].
  destruct (dict_get d "amount"); [| discriminate].
  intros _. eexists. reflexivity.
Qed.

Lemma breakdown_item_missing (item : pyval) :
  is_dict item = true -> has_both_keys item = false ->
  breakdown_item rt item = Err KeyError.
Proof.
  destruct item as [| | | | | | d]; try discriminate. intros _.
  unfold has_both_keys, has_key, breakdown_item. cbn [py_getitem rbind].
  destruct (dict_get d "category"); [| reflexivity].
  destruct (dict_get d "amount"); [discriminate | reflexivity].
Qed.

Lemma breakdown_items_missing (items : list pyval) :
  all_dicts items = true ->
  forallb has_both_keys items = false ->
  map_res (breakdown_item rt) items = Err KeyError.
Proof.
  induction items as [| item items IH]; simpl; intros Hd Hb; [discriminate |].
  apply andb_true_iff in Hd. destruct Hd as [Hi Hd].
  destruct (has_both_keys item) eqn:Hk.
  - destruct (breakdown_item_both item Hk) as (text & ->). simpl.
    rewrite (IH Hd Hb). reflexivity.
  - rewrite (breakdown_item_missing item Hi Hk). reflexivity.
Qed.

Lemma add_product_echo (name type : string) (quantity : Z) (price : spec_float)
    (sku : option string) (cost : option spec_float) (cost_breakdown : option string)
    (description caption : option string) (w : world)
    (d product : list (string * pyval)) (items : list pyval) :
  (forall r, exchange rt r = Responded (PDict d)) ->
  truthy (get_or d "success" PNone) = true ->
  get_or d "data" (PDict []) = PDict product ->
  get_or product "costBreakdown" PNone = PList items ->
  items <> [] ->
  fst (add_product rt name type quantity price sku cost cost_breakdown description caption w)
  = match map_res (breakdown_item rt) items with
    | Ok texts =>
        Returns ("Successfully added " ++ str_of_Z quantity ++ " units of '" ++ name
                 ++ "' (SKU: " ++ py_str rt (get_or product "sku" PNone)
                 ++ ") to inventory at $" ++ float_repr rt price ++ " per unit."
                 ++ " Cost breakdown: " ++ join ", " texts ++ ".")
    | Err e => Uncaught e
    end.
Proof.
  intros Hup Hs Hdata Hcb Hne.
  rewrite (add_product_run name type quantity price sku cost cost_breakdown description
             caption w).
  unfold reply. rewrite Hup. cbn [fst].
  unfold add_product_reply. rewrite bind_lift_get, Hs, bind_lift_get, Hdata.
  rewrite bind_lift_get, Hcb, (nonempty_truthy items Hne).
  assert (get_or product "costBreakdown" (PList []) = PList items) as Hcb'.
  { unfold get_or in *. destruct (dict_get product "costBreakdown"); [exact Hcb |].
    discriminate. }
  cbn [py_get rbind]. rewrite Hcb'. cbn [py_iter rbind].
  destruct (map_res (breakdown_item rt) items) as [texts | e]; reflexivity.
Qed.

(** X11: when the created product comes back with a cost breakdown whose
    entries all have a category and an amount, [add_product] appends one
    "category: $amount" text per entry, in order, separated by commas.
    When an entry is an object without one of the two keys, the tool
    ends in [KeyError] although the product was created. *)
Theorem add_product_breakdown_echo (w : world) (d product : list (string * pyval))
    (items : list pyval) :
  (forall r, exchange rt r = Responded (PDict d)) ->
  truthy (get_or d "success" PNone) = true ->
  get_or d "data" (PDict []) = PDict product ->
  get_or product "costBreakdown" PNone = PList items ->
  items <> [] ->
  forall name type quantity price sku cost cost_breakdown description caption,
    (forallb has_both_keys items = true ->
     exists texts,
       map_res (breakdown_item rt) items = Ok texts /\
       List.length texts = List.length items /\
       fst (add_product rt name type quantity price sku cost cost_breakdown
              description caption w)
       = Returns ("Successfully added " ++ str_of_Z quantity ++ " units of '" ++ name
                  ++ "' (SKU: " ++ py_str rt (get_or product "sku" PNone)
                  ++ ") to inventory at $" ++ float_repr rt price ++ " per unit."
                  ++ " Cost breakdown: " ++ join ", " texts ++ "."))
    /\
    (all_dicts items = true ->
     forallb has_both_keys items = false ->
     fst (add_product rt name type quantity price sku cost cost_breakdown
            description caption w)
     = Uncaught KeyError).
Proof.
  intros Hup Hs Hdata Hcb Hne name type quantity price sku cost cost_breakdown
    description caption.
  rewrite (add_product_echo name type quantity price sku cost cost_breakdown description
             caption w d product items Hup Hs Hdata Hcb Hne).
  split.
  - intros Hall.
    destruct (map_res_Forall2 (breakdown_item rt) has_both_keys (fun _ _ => True))
      with (l := items) as (texts & Htexts & _).
    + intros item Hk. destruct (breakdown_item_both item Hk) as (text & Ht).
      exists text. auto.
    + exact Hall.
    + exists texts. rewrite Htexts. repeat split.
      apply (map_res_length _ _ _ Htexts).
  - intros Hd Hmiss. rewrite (breakdown_items_missing items Hd Hmiss). reflexivity.
Qed.

(** ** Ranks and names *)

Lemma top_lines_ranked (items : list pyval) :
  forallb (sale_ok ["profit"]) items = true ->
  forall start,
  exists lines,
    map_res (top_line rt) (enumerate items start) = Ok lines /\ ranked start lines.
Proof.
  induction items as [| item items IH]; cbn [enumerate map_res forallb]; intros Hok start.
  - exists []. split; [reflexivity |]. intros [| k] line H; discriminate H.
  - apply andb_true_iff in Hok. destruct Hok as [Hi Hok].
    destruct item as [| | | | | | p]; try discriminate Hi.
    simpl in Hi. rewrite andb_true_r in Hi.
    rewrite (top_line_text start p Hi). cbn [rbind].
    destruct (IH Hok (start + 1)) as (lines & -> & Hranked). cbn [rbind].
    eexists. split; [reflexivity |].
    intros [| k] line H; cbn [nth_error] in H.
    + injection H as <-. rewrite Z.add_0_r.
      match goal with
      | |- String.prefix _ (?a ++ String "." (String " " ?rest)) = true =>
          change (String.prefix (a ++ ". ") (a ++ ". " ++ rest) = true)
      end.
      rewrite <- append_assoc. apply prefix_append.
    + specialize (Hranked k line H).
      replace (start + Z.of_nat (S k)) with (start + 1 + Z.of_nat k) by lia.
      exact Hranked.
Qed.

(** X12: [get_top_products] renders every item of the answer, and the
    k-th line carries the rank k, counted from 1. *)
Theorem top_products_ranked (period sort_by : string) (limit : Z) (w : world)
    (d : list (string * pyval)) (items : list pyval) :
  (forall r, exchange rt r = Responded (PDict d)) ->
  truthy (get_or d "success" PNone) = true ->
  get_or d "data" (PList []) = PList items ->
  items <> [] ->
  forallb (sale_ok ["profit"]) items = true ->
  exists lines,
    List.length lines = List.length items /\
    ranked 1 lines /\
    fst (get_top_products rt period sort_by limit w)
    = Returns ("Top " ++ str_of_Z (Z.of_nat (List.length items)) ++ " product(s) by "
               ++ sort_by ++ " for " ++ period ++ ":" ++ nl ++ text_of lines).
Proof.
  intros Hup Hs Hdata Hne Hok.
  destruct (top_lines_ranked items Hok 1) as (lines & Hlines & Hranked).
  exists lines. split; [| split; [exact Hranked |]].
  - rewrite (map_res_length _ _ _ Hlines). apply enumerate_length.
  - apply top_products_text with (d := d) (items := items); assumption.
Qed.

(** X13: a sale whose [productId] is an object with a [name] is shown
    under that name, as [str] renders it; a [name] that is [null] is
    shown as [None]. *)
Theorem named_product_rendered (sale pid : list (string * pyval)) (v : pyval) :
  dict_get sale "productId" = Some (PDict pid) ->
  dict_get pid "name" = Some v ->
  sale_product_name (PDict sale) = Ok v
  /\
  (money_field sale "totalSaleValue" = true ->
   money_field sale "profit" = true ->
   exists line,
     sales_history_line rt (PDict sale) = Ok line /\
     String.prefix ("- " ++ py_str rt v ++ " (") line = true)
  /\
  (money_field sale "totalSaleValue" = true ->
   exists line,
     recent_sales_line rt (PDict sale) = Ok line /\
     String.prefix ("- " ++ py_str rt v ++ " (") line = true)
  /\
  (v = PNone -> py_str rt v = "None").
Proof.
  intros Hpid Hname.
  assert (sale_product_name (PDict sale) = Ok v) as Hv.
  { rewrite sale_product_name_dict, Hpid. unfold get_or. rewrite Hname. reflexivity. }
  split; [exact Hv |]. split; [| split].
  - intros Ht Hp. destruct (sales_history_line_text sale Ht Hp) as (name & Hn & Hline).
    rewrite Hv in Hn. injection Hn as <-. eexists. split; [exact Hline |].
    rewrite <- !append_assoc. rewrite !append_assoc.
    match goal with
    | |- String.prefix ?a ("- " ++ ?n ++ " (" ++ ?rest) = true =>
        replace ("- " ++ n ++ " (" ++ rest) with (a ++ rest)
          by (rewrite !append_assoc; reflexivity)
    end.
    apply prefix_append.
  - intros Ht. destruct (recent_sales_line_text sale Ht) as (name & Hn & Hline).
    rewrite Hv in Hn. injection Hn as <-. eexists. split; [exact Hline |].
    match goal with
    | |- String.prefix ?a ("- " ++ ?n ++ " " ++ "(" ++ ?rest) = true =>
        replace ("- " ++ n ++ " " ++ "(" ++ rest) with (a ++ rest)
          by (rewrite !append_assoc; reflexivity)
    end.
    apply prefix_append.
  - intros ->. reflexivity.
Qed.

(** ** The test double *)

(** X14: the test double [view_analytics_test] renders, for every period,
    the text [view_analytics] returns when the service answers with the
    double's mocked data for that period (the empty object for a period
    the double does not know). *)
Theorem test_double_agrees (period : string) (w : world) :
  (forall r,
      exchange rt r
      = Responded (success_payload (get_or mock_responses period (PDict [])))) ->
  exists text,
    view_analytics_test rt period = Ok text /\
    fst (view_analytics rt period w) = Returns text.
Proof.
  intros Hup. unfold view_analytics. call_responded Hup. unfold success_payload.
  rewrite bind_lift_get. cbn [get_or dict_get success_payload String.eqb Ascii.eqb
                                Bool.eqb truthy].
  rewrite bind_lift_get. cbn [get_or dict_get success_payload String.eqb Ascii.eqb
                                Bool.eqb].
  unfold view_analytics_test. cbn [py_get rbind].
  unfold get_or, mock_responses. cbn [dict_get].
  destruct (String.eqb "today" period);
    [eexists; split; vm_compute; reflexivity |].
  destruct (String.eqb "week" period);
    [eexists; split; vm_compute; reflexivity |].
  destruct (String.eqb "month" period);
    [eexists; split; vm_compute; reflexivity |].
  destruct (String.eqb "year" period);
    [eexists; split; vm_compute; reflexivity |].
  eexists; split; vm_compute; reflexivity.
Qed.

Lemma contains_prefix (needle hay : string) :
  String.prefix needle hay = true -> contains needle hay = true.
Proof. destruct hay; simpl; intros ->; reflexivity. Qed.

Lemma contains_append (a needle b : string) : contains needle (a ++ needle ++ b) = true.
Proof.
  induction a as [| c a IH]; simpl.
  - apply contains_prefix. apply prefix_append.
  - rewrite IH. apply orb_true_r.
Qed.

Lemma view_analytics_test_shape (period : string) :
  exists revenue profit sales margin,
    view_analytics_test rt period
    = Ok ("Analytics for " ++ period ++ ": "
          ++ "Revenue: $" ++ revenue ++ ", "
          ++ "Profit: $" ++ profit ++ ", "
          ++ "Sales: " ++ sales ++ ", "
          ++ "Profit margin: " ++ margin ++ "%")
    /\ (period = "month" ->
        revenue = "15420.50" /\ profit = "6840.20" /\ sales = "42" /\ margin = "44.4").
Proof.
  unfold view_analytics_test. cbn [py_get rbind]. unfold get_or, mock_responses.
  cbn [dict_get].
  destruct (String.eqb_spec "today" period) as [<- | _].
  { exists "450.00", "180.00", "3", "40.0".
    split; [vm_compute; reflexivity | discriminate]. }
  destruct (String.eqb_spec "week" period) as [<- | _].
  { exists "3250.00", "1420.50", "18", "43.7".
    split; [vm_compute; reflexivity | discriminate]. }
  destruct (String.eqb_spec "month" period) as [<- | Hm].
  { exists "15420.50", "6840.20", "42", "44.4".
    split; [vm_compute; reflexivity |]. intros _. repeat split. }
  destruct (String.eqb_spec "year" period) as [<- | _].
  { exists "185640.00", "82150.00", "520", "44.2".
    split; [vm_compute; reflexivity | discriminate]. }
  exists "0.00", "0.00", "0", "0.0". split; [reflexivity | congruence].
Qed.

(** X15: what the tests assert of the double holds for every period,
    known to it or not: the text starts with "Analytics for <period>:"
    and contains the four labels; for the month it contains the four
    figures the test expects. *)
Theorem test_assertions_hold (period : string) :
  exists text,
    view_analytics_test rt period = Ok text
    /\ contains ("Analytics for " ++ period ++ ":") text = true
    /\ contains "Revenue:" text = true
    /\ contains "Profit:" text = true
    /\ contains "Sales:" text = true
    /\ contains "Profit margin:" text = true
    /\ (period = "month" ->
        contains "Revenue: $15420.50" text = true
        /\ contains "Profit: $6840.20" text = true
        /\ contains "Sales: 42" text = true
        /\ contains "Profit margin: 44.4%" text = true
        /\ contains "$15420.50" text = true).
Proof.
  destruct (view_analytics_test_shape period) as (r & p & s & m & Htext & Hmonth).
  eexists. split; [exact Htext |].
  repeat split.
  - replace ("Analytics for " ++ period ++ ": " ++ "Revenue: $" ++ r ++ ", "
             ++ "Profit: $" ++ p ++ ", " ++ "Sales: " ++ s ++ ", "
             ++ "Profit margin: " ++ m ++ "%")
      with ("" ++ ("Analytics for " ++ period ++ ":")
            ++ (" " ++ "Revenue: $" ++ r ++ ", " ++ "Profit: $" ++ p ++ ", "
                ++ "Sales: " ++ s ++ ", " ++ "Profit margin: " ++ m ++ "%"))
      by (rewrite !append_assoc; reflexivity).
    apply contains_append.
  - replace ("Analytics for " ++ period ++ ": " ++ "Revenue: $" ++ r ++ ", "
             ++ "Profit: $" ++ p ++ ", " ++ "Sales: " ++ s ++ ", "
             ++ "Profit margin: " ++ m ++ "%")
      with (("Analytics for " ++ period ++ ": ") ++ "Revenue:"
            ++ (" $" ++ r ++ ", " ++ "Profit: $" ++ p ++ ", "
                ++ "Sales: " ++ s ++ ", " ++ "Profit margin: " ++ m ++ "%"))
      by (rewrite !append_assoc; reflexivity).
    apply contains_append.
  - replace ("Analytics for " ++ period ++ ": " ++ "Revenue: $" ++ r ++ ", "
             ++ "Profit: $" ++ p ++ ", " ++ "Sales: " ++ s ++ ", "
             ++ "Profit margin: " ++ m ++ "%")
      with (("Analytics for " ++ period ++ ": " ++ "Revenue: $" ++ r ++ ", ")
            ++ "Profit:"
            ++ (" $" ++ p ++ ", " ++ "Sales: " ++ s ++ ", "
                ++ "Profit margin: " ++ m ++ "%"))
      by (rewrite !append_assoc; reflexivity).
    apply contains_append.
  - replace ("Analytics for " ++ period ++ ": " ++ "Revenue: $" ++ r ++ ", "
             ++ "Profit: $" ++ p ++ ", " ++ "Sales: " ++ s ++ ", "
             ++ "Profit margin: " ++ m ++ "%")
      with (("Analytics for " ++ period ++ ": " ++ "Revenue: $" ++ r ++ ", "
             ++ "Profit: $" ++ p ++ ", ")
            ++ "Sales:" ++ (" " ++ s ++ ", " ++ "Profit margin: " ++ m ++ "%"))
      by (rewrite !append_assoc; reflexivity).
    apply contains_append.
  - replace ("Analytics for " ++ period ++ ": " ++ "Revenue: $" ++ r ++ ", "
             ++ "Profit: $" ++ p ++ ", " ++ "Sales: " ++ s ++ ", "
             ++ "Profit margin: " ++ m ++ "%")
      with (("Analytics for " ++ period ++ ": " ++ "Revenue: $" ++ r ++ ", "
             ++ "Profit: $" ++ p ++ ", " ++ "Sales: " ++ s ++ ", ")
            ++ "Profit margin:" ++ (" " ++ m ++ "%"))
      by (rewrite !append_assoc; reflexivity).
    apply contains_append.
  - destruct (Hmonth H) as (-> & -> & -> & ->). subst period. reflexivity.
  - destruct (Hmonth H) as (-> & -> & -> & ->). subst period. reflexivity.
  - destruct (Hmonth H) as (-> & -> & -> & ->). subst period. reflexivity.
  - destruct (Hmonth H) as (-> & -> & -> & ->). subst period. reflexivity.
  - destruct (Hmonth H) as (-> & -> & -> & ->). subst period. reflexivity.
Qed.

(** ** More of the renderers *)

Lemma monthly_profits_text (months : Z) (w : world) (d : list (string * pyval))
    (items : list pyval) (lines : list string) :
  (forall r, exchange rt r = Responded (PDict d)) ->
  truthy (get_or d "success" PNone) = true ->
  get_or d "data" (PList []) = PList items ->
  items <> [] ->
  map_res (monthly_line rt) (firstn 5 items) = Ok lines ->
  fst (get_monthly_profits rt months w)
  = Returns ("Monthly profits (last " ++ str_of_Z months ++ " months):" ++ nl
             ++ text_of lines).
Proof.
  intros Hup Hs Hdata Hne Hlines.
  success_path Hup Hs. data_path_nonempty Hdata Hne.
  cbn [py_len py_slice_to py_iter rbind].
  rewrite (for_append_lines _ _ lines _ Hlines). cbn [lift fst].
  rewrite !append_assoc. reflexivity.
Qed.

(** X17: up to five items [get_sales_history] and [get_monthly_profits]
    render one line per item of the answer, provided the currency
    fields of the items are absent or finite numbers. *)
Theorem short_histories_complete (w : world) (d : list (string * pyval))
    (items : list pyval) :
  (forall r, exchange rt r = Responded (PDict d)) ->
  truthy (get_or d "success" PNone) = true ->
  get_or d "data" (PList []) = PList items ->
  items <> [] ->
  (List.length items <= 5)%nat ->
  (forall product_name start_date end_date limit,
      forallb (sale_ok ["totalSaleValue"; "profit"]) items = true ->
      exists lines,
        map_res (sales_history_line rt) items = Ok lines /\
        List.length lines = List.length items /\
        fst (get_sales_history rt product_name start_date end_date limit w)
        = Returns ("Found " ++ str_of_Z (Z.of_nat (List.length items)) ++ " sale(s):"
                   ++ nl ++ text_of lines))
  /\
  (forall months,
      forallb (sale_ok ["profit"]) items = true ->
      exists lines,
        map_res (monthly_line rt) items = Ok lines /\
        List.length lines = List.length items /\
        fst (get_monthly_profits rt months w)
        = Returns ("Monthly profits (last " ++ str_of_Z months ++ " months):" ++ nl
                   ++ text_of lines)).
Proof.
  intros Hup Hs Hdata Hne Hlen. split.
  - intros product_name start_date end_date limit Hok.
    destruct (map_res_Forall2 _ _ shows_unknown sales_history_line_ok _ Hok)
      as (lines & Hlines & _).
    exists lines. split; [exact Hlines |]. split; [apply (map_res_length _ _ _ Hlines) |].
    apply sales_history_text with (d := d) (items := items); try assumption.
    rewrite (firstn_short items Hlen). exact Hlines.
  - intros months Hok.
    destruct (map_res_Forall2 (monthly_line rt) (sale_ok ["profit"]) (fun _ _ => True))
      with (l := items) as (lines & Hlines & _).
    + intros item Hi. destruct item as [| | | | | | m]; try discriminate Hi.
      simpl in Hi. rewrite andb_true_r in Hi.
      rewrite (monthly_line_text m Hi). eexists. auto.
    + exact Hok.
    + exists lines. split; [exact Hlines |].
      split; [apply (map_res_length _ _ _ Hlines) |].
      apply monthly_profits_text with (d := d) (items := items); try assumption.
      rewrite (firstn_short items Hlen). exact Hlines.
Qed.

(** X18: [get_product] renders any JSON object: no field is required,
    a missing cost is shown as [0] and every other missing field as
    [None]. *)
Theorem get_product_any_object (product_identifier : string) (w : world)
    (d product : list (string * pyval)) :
  (forall r, exchange rt r = Responded (PDict d)) ->
  truthy (get_or d "success" PNone) = true ->
  get_or d "data" (PDict []) = PDict product ->
  fst (get_product rt product_identifier w)
  = Returns ("Product: " ++ py_str rt (get_or product "name" PNone)
             ++ ", SKU: " ++ py_str rt (get_or product "sku" PNone) ++ ", "
             ++ "Type: " ++ py_str rt (get_or product "type" PNone)
             ++ ", Quantity: " ++ py_str rt (get_or product "quantity" PNone) ++ ", "
             ++ "Price: $" ++ py_str rt (get_or product "price" PNone)
             ++ ", Cost: $" ++ py_str rt (get_or product "cost" (PInt 0)))
  /\ (dict_get product "cost" = None ->
      py_str rt (get_or product "cost" (PInt 0)) = "0")
  /\ (forall k, dict_get product k = None -> py_str rt (get_or product k PNone) = "None").
Proof.
  intros Hup Hs Hdata. split; [| split].
  - unfold get_product. call_responded Hup. rewrite bind_lift_get, Hs.
    rewrite bind_lift_get, Hdata. reflexivity.
  - intros H. rewrite (get_or_absent _ _ _ H). reflexivity.
  - intros k H. rewrite (get_or_absent _ _ _ H). reflexivity.
Qed.

End Properties.

(** ** Concrete runs *)

Lemma transport_fault_contained_witness :
  fst (call_inventory_api (unreachable "Cannot connect to host") "/api/sales" "GET"
         PNone empty_world)
  = Returns (PDict [("success", PBool false); ("error", PStr "Cannot connect to host")])
  /\
  fst (invoke (unreachable "Cannot connect to host") (GetRecentSales 5) empty_world)
  = ToolError "Failed to get sales: Cannot connect to host".
Proof.
  destruct (transport_fault_contained (unreachable "Cannot connect to host"))
    as (_ & Hcall & Htool).
  split.
  - destruct (Hcall "/api/sales" "GET" PNone empty_world eq_refl)
      as (r & _ & _ & _ & Hfault).
    apply (Hfault "Cannot connect to host"). reflexivity.
  - apply (Htool (GetRecentSales 5) empty_world "Cannot connect to host").
    intros r. reflexivity.
Defined.

Lemma call_inventory_api_result_witness :
  (exists r,
      req_method r = "PUT" /\
      sent (snd (call_inventory_api (answering (success_payload PNone)) "/api/products/x"
                   "PUT" (PDict []) empty_world)) = [r])
  /\
  call_inventory_api (answering (success_payload PNone)) "/api/products/x" "PATCH"
    (PDict []) empty_world = (Returns PNone, empty_world).
Proof.
  split.
  - destruct (proj1 (call_inventory_api_result (answering (success_payload PNone))
                       "/api/products/x" "PUT" (PDict []) empty_world) eq_refl)
      as (r & Hm & _ & Hs & _).
    exists r. split; assumption.
  - apply (proj2 (call_inventory_api_result (answering (success_payload PNone))
                    "/api/products/x" "PATCH" (PDict []) empty_world)).
    reflexivity.
Defined.

(** C10 as stated fails: the service answers a GET with the JSON array
    [[]] and the helper returns that list, which is not a dictionary. *)
Lemma supported_verb_returns_list :
  fst (call_inventory_api (answering (PList [])) "/api/products" "GET" PNone empty_world)
  = Returns (PList [])
  /\ is_dict (PList []) = false.
Proof. split; reflexivity. Qed.

Lemma tool_error_iff_success_falsy_witness :
  fst (invoke (answering (PDict [("success", PBool false); ("error", PStr "not found")]))
         (DeleteProduct "BC-001") empty_world)
  = ToolError "Failed to delete product: not found".
Proof.
  destruct (tool_error_iff_success_falsy
              (answering (PDict [("success", PBool false); ("error", PStr "not found")]))
              (DeleteProduct "BC-001") empty_world
              (PDict [("success", PBool false); ("error", PStr "not found")])
              (fun _ => eq_refl)) as (_ & H).
  destruct (H _ eq_refl) as (_ & Hmsg).
  destruct (Hmsg eq_refl) as (Hverbatim & _).
  apply (Hverbatim "not found"). reflexivity.
Defined.

(** C2 as stated fails: the service answers [{"success": true, "data": null}]
    and [record_sale] ends in an uncaught [AttributeError] instead of
    returning a string. *)
Lemma success_payload_can_raise :
  py_get (success_payload PNone) "success" PNone = Ok (PBool true) /\
  fst (invoke (answering (success_payload PNone)) (RecordSale "BC-001" 2 None) empty_world)
  = Uncaught AttributeError.
Proof. split; reflexivity. Qed.

Lemma currency_two_decimals_witness :
  fst (record_sale (answering (success_payload (PDict [("totalSaleValue", PInt 100)])))
         "BC-001" 2 None empty_world)
  = Returns "Sale recorded! Sold 2 units of BC-001. Total: $100.00, Profit: $0.00".
Proof.
  destruct (currency_two_decimals
              (answering (success_payload (PDict [("totalSaleValue", PInt 100)]))))
    as (_ & Htools & _).
  destruct (Htools empty_world _ [("totalSaleValue", PInt 100)]
              (fun _ => eq_refl) eq_refl eq_refl) as (Hsale & _).
  apply (Hsale "BC-001" 2 None); reflexivity.
Defined.

(** C4 as stated fails: [get_product] on a product without price and
    cost shows [None] for the price and [0] for the cost. *)
Lemma product_price_shows_none :
  fst (invoke (answering (success_payload (PDict [("name", PStr "Towel")])))
         (GetProduct "Towel") empty_world)
  = Returns "Product: Towel, SKU: None, Type: None, Quantity: None, Price: $None, Cost: $0"
  /\
  contains "None"
    "Product: Towel, SKU: None, Type: None, Quantity: None, Price: $None, Cost: $0" = true.
Proof. split; reflexivity. Qed.

Lemma profit_stats_round_trip_witness :
  fst (get_profit_stats (answering profit_payload) "month" empty_world)
  = Returns ("Profit stats for month: Total profit: $6840.20, Revenue: $15420.50, "
             ++ "Cost: $8580.30, Average profit per sale: $163.00").
Proof.
  apply (profit_stats_round_trip (answering profit_payload) empty_world).
  intros r. reflexivity.
Defined.

Lemma listing_previews_witness :
  exists lines,
    List.length lines = 5%nat /\
    fst (search_products (answering (success_payload (PList eight_products)))
           (Some "cc-002") None false empty_world)
    = Returns ("Found 8 product(s):" ++ nl ++ text_of lines ++ "... and 3 more.").
Proof.
  destruct (listing_previews (answering (success_payload (PList eight_products)))
              empty_world _ (fun _ => eq_refl) eq_refl) as (_ & Hmore).
  destruct (Hmore eight_products eq_refl ltac:(simpl; lia) eq_refl) as (Hsearch & _).
  destruct (Hsearch (Some "cc-002") None false) as (lines & _ & Hlen & Htext).
  exists lines. split; [exact Hlen | exact Htext].
Defined.

(** C3 as stated fails: [get_recent_sales] on six sales shows six
    entries and no remainder. *)
Lemma recent_sales_shows_all :
  fst (invoke (answering (success_payload (PList six_sales))) (GetRecentSales 6)
         empty_world)
  = Returns ("Recent 6 sale(s):" ++ nl
             ++ "- Unknown (1 units, $0.00)" ++ nl
             ++ "- Unknown (2 units, $0.00)" ++ nl
             ++ "- Unknown (3 units, $0.00)" ++ nl
             ++ "- Unknown (4 units, $0.00)" ++ nl
             ++ "- Unknown (5 units, $0.00)" ++ nl
             ++ "- Unknown (6 units, $0.00)" ++ nl)
  /\
  forall s,
    fst (invoke (answering (success_payload (PList six_sales))) (GetRecentSales 6)
           empty_world) = Returns s ->
    contains "more" s = false.
Proof.
  split; [reflexivity |].
  intros s H. vm_compute in H. injection H as <-. reflexivity.
Qed.

Lemma unknown_product_rendered_witness :
  exists lines,
    fst (get_recent_sales (answering (success_payload (PList six_sales))) 5 empty_world)
    = Returns ("Recent 6 sale(s):" ++ nl ++ text_of lines)
    /\ Forall2 shows_unknown six_sales lines.
Proof.
  destruct (unknown_product_rendered (answering (success_payload (PList six_sales))))
    as (_ & Hops).
  destruct (Hops empty_world _ six_sales (fun _ => eq_refl) eq_refl eq_refl
              ltac:(discriminate)) as (_ & Hrecent).
  exact (Hrecent 5 eq_refl).
Defined.


Lemma malformed_breakdown_fail_soft_witness :
  fst (update_product (answering (success_payload (PDict []))) "BC-001"
         None None None None None None (Some "[") None None empty_world)
  = Returns "Successfully updated product details for 'BC-001'.".
Proof.
  destruct (malformed_breakdown_fail_soft (answering (success_payload (PDict [])))
              "[" "Expecting value: line 1 column 2 (char 1)" eq_refl)
    as (_ & _ & Hsuccess).
  destruct (Hsuccess empty_world _ (fun _ => eq_refl) eq_refl) as (Hupdate & _).
  apply (Hupdate "BC-001" None None None None None None None None).
Defined.

(** C6 as stated fails: the empty text is not valid JSON, and
    [add_product] logs no warning for it. *)
Lemma empty_breakdown_not_logged :
  json_loads (answering (success_payload (PDict []))) ""
  = ParseError "Expecting value: line 1 column 1 (char 0)"
  /\
  logged (snd (invoke (answering (success_payload (PDict [])))
                 (AddProduct "Towel" "towels" 10 (float_of_ratio 15 1)
                    None None (Some "") None None) empty_world))
  = [].
Proof. split; reflexivity. Qed.

Lemma valid_breakdown_forwarded_witness :
  exists body,
    sent (snd (add_product (answering (success_payload (PDict []))) "Cushion"
                 "cushion-covers" 30 (float_of_ratio 45 1) None None
                 (Some sample_breakdown_text) None None empty_world))
    = [mk_request "POST" "http://localhost:3000/api/products" (Some (PDict body))]
    /\ dict_get body "costBreakdown" = Some (PList sample_breakdown).
Proof.
  destruct (valid_breakdown_forwarded (answering (success_payload (PDict [])))
              sample_breakdown_text sample_breakdown
              ltac:(discriminate) eq_refl) as (Hadd & _).
  exact (Hadd "Cushion" "cushion-covers" 30 (float_of_ratio 45 1) None None None None
           empty_world).
Defined.

(** ** Concrete runs of the further properties *)

Lemma shared_endpoints_witness :
  sent (snd (search_products (answering (success_payload (PList []))) None
               (Some "towels") true empty_world))
  = sent (snd (list_products (answering (success_payload (PList [])))
                 (Some "towels") true empty_world)).
Proof.
  destruct (shared_endpoints (answering (success_payload (PList []))) empty_world)
    as (_ & Hsame & _).
  apply (Hsame (Some "towels") true). discriminate.
Defined.

Lemma success_without_data_witness :
  is_returns (fst (invoke (answering (PDict [("success", PBool true)]))
                     GetInventorySummary empty_world)) = true.
Proof.
  apply (success_without_data (answering (PDict [("success", PBool true)]))
           GetInventorySummary empty_world [("success", PBool true)]
           (fun _ => eq_refl) eq_refl eq_refl).
Defined.

Lemma confirmations_ignore_data_witness :
  fst (delete_product (answering (success_payload PNone)) "BC-001" empty_world)
  = Returns "Successfully deleted product 'BC-001'.".
Proof.
  destruct (confirmations_ignore_data (answering (success_payload PNone)) empty_world _
              (fun _ => eq_refl) eq_refl) as (Hdelete & _).
  apply (Hdelete "BC-001").
Defined.

Lemma update_confirmation_fields_witness :
  fst (update_product (answering (success_payload PNone)) "BC-001" None (Some "BC-002")
         None None None None None None None empty_world)
  = Returns "Successfully updated product details for 'BC-001'.".
Proof.
  destruct (update_confirmation_fields (answering (success_payload PNone)) empty_world _
              "BC-001" None (Some "BC-002") None None None None None None None
              (fun _ => eq_refl) eq_refl) as (_ & Hdetails & _).
  apply Hdetails; reflexivity.
Defined.

Lemma format_errors_escape_witness :
  fst (record_sale
         (answering (success_payload (PDict [("totalSaleValue", PInt 100);
                                             ("profit", PNone)])))
         "BC-001" 2 None empty_world)
  = Uncaught TypeError.
Proof.
  destruct (format_errors_escape
              (answering (success_payload (PDict [("totalSaleValue", PInt 100);
                                                  ("profit", PNone)])))
              empty_world _ [("totalSaleValue", PInt 100); ("profit", PNone)]
              (fun _ => eq_refl) eq_refl eq_refl) as (Hsale & _).
  destruct (Hsale "BC-001" 2 None) as (Herror & _).
  apply (Herror TypeError). reflexivity.
Defined.

Lemma short_listings_complete_witness :
  exists lines,
    List.length lines = 3%nat /\
    fst (search_products (answering (success_payload (PList three_products)))
           None None false empty_world)
    = Returns ("Found 3 product(s):" ++ nl ++ text_of lines).
Proof.
  destruct (short_listings_complete (answering (success_payload (PList three_products)))
              empty_world _ three_products (fun _ => eq_refl) eq_refl eq_refl
              ltac:(discriminate) ltac:(simpl; lia) eq_refl) as (Hsearch & _).
  destruct (Hsearch None None false) as (lines & _ & Hlen & Htext).
  exists lines. split; [exact Hlen | exact Htext].
Defined.

Lemma listing_item_not_object_witness :
  fst (list_products (answering (success_payload (PList [PInt 1]))) None false empty_world)
  = Uncaught AttributeError.
Proof.
  destruct (listing_item_not_object (answering (success_payload (PList [PInt 1])))
              empty_world _ [PInt 1] (fun _ => eq_refl) eq_refl eq_refl eq_refl)
    as (_ & Hlist & _).
  apply (Hlist None false).
Defined.

Lemma add_product_breakdown_echo_witness :
  exists texts,
    map_res (breakdown_item
               (answering (success_payload
                             (PDict [("sku", PStr "CC-003");
                                     ("costBreakdown", PList sample_breakdown)]))))
      sample_breakdown = Ok texts
    /\ texts = ["Material: $20"; "Embroidery: $10"].
Proof.
  destruct (add_product_breakdown_echo
              (answering (success_payload
                            (PDict [("sku", PStr "CC-003");
                                    ("costBreakdown", PList sample_breakdown)])))
              empty_world _ _ sample_breakdown (fun _ => eq_refl) eq_refl eq_refl eq_refl
              ltac:(discriminate)
              "Cushion" "cushion-covers" 30 (float_of_ratio 45 1) None None None None None)
    as (Hecho & _).
  destruct (Hecho eq_refl) as (texts & Htexts & _).
  exists texts. split; [exact Htexts |].
  vm_compute in Htexts. injection Htexts as <-. reflexivity.
Defined.

Lemma top_products_ranked_witness :
  exists lines,
    ranked 1 lines /\
    fst (get_top_products (answering (success_payload (PList two_ranked)))
           "month" "profit" 5 empty_world)
    = Returns ("Top 2 product(s) by profit for month:" ++ nl ++ text_of lines).
Proof.
  destruct (top_products_ranked (answering (success_payload (PList two_ranked)))
              "month" "profit" 5 empty_world _ two_ranked (fun _ => eq_refl) eq_refl
              eq_refl ltac:(discriminate) eq_refl) as (lines & _ & Hranked & Htext).
  exists lines. split; [exact Hranked | exact Htext].
Defined.

Lemma named_product_rendered_witness :
  sale_product_name (PDict named_sale) = Ok (PStr "Bath Towel").
Proof.
  apply (named_product_rendered (answering PNone) named_sale
           [("name", PStr "Bath Towel")] (PStr "Bath Towel") eq_refl eq_refl).
Defined.

Lemma test_double_agrees_witness :
  exists text,
    view_analytics_test
      (answering (success_payload (get_or mock_responses "week" (PDict [])))) "week"
    = Ok text
    /\ fst (view_analytics
              (answering (success_payload (get_or mock_responses "week" (PDict []))))
              "week" empty_world)
       = Returns text.
Proof.
  apply (test_double_agrees
           (answering (success_payload (get_or mock_responses "week" (PDict []))))
           "week" empty_world).
  intros r. reflexivity.
Defined.

Lemma test_assertions_hold_witness :
  exists text,
    view_analytics_test (answering PNone) "month" = Ok text
    /\ contains "Revenue: $15420.50" text = true.
Proof.
  destruct (test_assertions_hold (answering PNone) "month")
    as (text & Htext & _ & _ & _ & _ & _ & Hmonth).
  exists text. split; [exact Htext |].
  apply (Hmonth eq_refl).
Defined.

Lemma short_histories_complete_witness :
  exists lines,
    List.length lines = 3%nat /\
    fst (get_sales_history (answering (success_payload (PList three_sales)))
           None None None 10 empty_world)
    = Returns ("Found 3 sale(s):" ++ nl ++ text_of lines).
Proof.
  destruct (short_histories_complete (answering (success_payload (PList three_sales)))
              empty_world _ three_sales (fun _ => eq_refl) eq_refl eq_refl
              ltac:(discriminate) ltac:(simpl; lia)) as (Hhistory & _).
  destruct (Hhistory None None None 10 eq_refl) as (lines & _ & Hlen & Htext).
  exists lines. split; [exact Hlen | exact Htext].
Defined.

Lemma get_product_any_object_witness :
  fst (get_product (answering (success_payload (PDict [("name", PStr "Towel")])))
         "Towel" empty_world)
  = Returns "Product: Towel, SKU: None, Type: None, Quantity: None, Price: $None, Cost: $0".
Proof.
  apply (get_product_any_object
           (answering (success_payload (PDict [("name", PStr "Towel")])))
           "Towel" empty_world _ [("name", PStr "Towel")] (fun _ => eq_refl) eq_refl eq_refl).
Defined.
